(** * Bright Horizon fee management: a shallow embedding of [app.py]

    The request handlers of [app.py] are embedded as functions in a state and
    exception monad over the three MongoDB collections and the Flask session.
    What the handlers call but do not define (the conversion [float()], the
    [ObjectId] constructor, [check_password_hash], the non-ASCII rows of the
    Unicode character database) is collected in the class [Runtime]; every
    definition and theorem of the development is generic in it, and one small
    instance is given at the end to run the handlers on concrete requests. *)

From Stdlib Require Import List NArith ZArith Bool Lia String Ascii Permutation.
Import ListNotations.

Open Scope N_scope.

(** ** Python strings

    A [str] is a sequence of Unicode code points. *)

Definition codepoint := N.
Definition pystr := list codepoint.

(** A literal written with the characters of an ASCII string. *)
Definition py (s : string) : pystr := map N_of_ascii (list_ascii_of_string s).

Definition pystr_eqb (a b : pystr) : bool :=
  if list_eq_dec N.eq_dec a b then true else false.

Definition opt_pystr_eqb (a b : option pystr) : bool :=
  match a, b with
  | Some x, Some y => pystr_eqb x y
  | None, None => true
  | _, _ => false
  end.

Definition is_ascii (s : pystr) : bool := forallb (fun c => c <? 128) s.

(** [str.isspace] on one code point: the white space of Unicode, which is
    what [str.split()] and [str.strip()] without argument cut on. *)
Definition isspace (c : codepoint) : bool :=
  ((9 <=? c) && (c <=? 13)) || ((28 <=? c) && (c <=? 32))
  || (c =? 133) || (c =? 160) || (c =? 5760)
  || ((8192 <=? c) && (c <=? 8202))
  || (c =? 8232) || (c =? 8233) || (c =? 8239) || (c =? 8287) || (c =? 12288).

Definition space : codepoint := 32.

(** [str.split()]: the maximal runs of characters that are not white space,
    from left to right.  [split_run s] returns the run that starts [s]
    (empty when [s] starts with white space) and the runs after it. *)
Definition cons_run (t : pystr) (ts : list pystr) : list pystr :=
  match t with
  | [] => ts
  | _ :: _ => t :: ts
  end.

Fixpoint split_run (s : pystr) : pystr * list pystr :=
  match s with
  | [] => ([], [])
  | c :: s' =>
      let (t, ts) := split_run s' in
      if isspace c then ([], cons_run t ts) else (c :: t, ts)
  end.

Definition split (s : pystr) : list pystr :=
  let (t, ts) := split_run s in cons_run t ts.

(** [sep.join(l)] *)
Fixpoint join (sep : pystr) (l : list pystr) : pystr :=
  match l with
  | [] => []
  | t :: ts =>
      match ts with
      | [] => t
      | _ :: _ => t ++ sep ++ join sep ts
      end
  end.

(** [str.strip()] *)
Fixpoint lstrip (s : pystr) : pystr :=
  match s with
  | [] => []
  | c :: s' => if isspace c then lstrip s' else s
  end.

Definition rstrip (s : pystr) : pystr := rev (lstrip (rev s)).
Definition strip (s : pystr) : pystr := rstrip (lstrip s).

(** The ASCII rows of the Unicode character database. *)
Definition ascii_isupper (c : codepoint) : bool := (65 <=? c) && (c <=? 90).
Definition ascii_islower (c : codepoint) : bool := (97 <=? c) && (c <=? 122).
Definition ascii_isalpha (c : codepoint) : bool := ascii_isupper c || ascii_islower c.
Definition ascii_upper (c : codepoint) : codepoint := if ascii_islower c then c - 32 else c.
Definition ascii_lower (c : codepoint) : codepoint := if ascii_isupper c then c + 32 else c.

(** ** What the program takes from Python and its libraries *)

Class Runtime : Type := {
  (** Python numbers ([float], and the [int] 0 they are mixed with) *)
  num : Type;
  num_zero : num;
  num_add : num -> num -> num;
  num_sub : num -> num -> num;
  (** [float(s)] on a string; [None] when it raises [ValueError] *)
  float_of_str : pystr -> option num;
  (** [bson.ObjectId] values, and [ObjectId(s)] on a string; [None] when it
      raises [InvalidId] *)
  oid : Type;
  oid_eqb : oid -> oid -> bool;
  oid_eqb_eq : forall a b, oid_eqb a b = true <-> a = b;
  ObjectId : pystr -> option oid;
  (** [werkzeug.security.check_password_hash(pwhash, password)]; [None] when
      it raises (a password that is not a string) *)
  check_password_hash : pystr -> option pystr -> option bool;
  (** Rows of the Unicode character database for the code points from 128
      on: whether the character is cased, its title-case and lower-case
      mappings (a mapping can be several code points long). *)
  ucd_cased : codepoint -> bool;
  ucd_title : codepoint -> pystr;
  ucd_lower : codepoint -> pystr
}.

(** ** Exceptions

    The exceptions that leave the library calls of the handlers. *)

Inductive exn : Type :=
| ValueError
| InvalidId
| PasswordError.

Inductive outcome (A : Type) : Type :=
| Return (a : A)
| Raise (e : exn).

Arguments Return {A} a.
Arguments Raise {A} e.

Section Program.

Context {R : Runtime}.

(** *** [str.title()]

    CPython walks the string once: a character that follows a cased character
    is lower-cased, any other is title-cased.  (One code point, U+03A3, is
    lower-cased by CPython according to its neighbours; the table has one
    lower-case mapping per code point, so strings with U+03A3 after a cased
    character are not covered.) *)
Definition is_cased (c : codepoint) : bool :=
  if c <? 128 then ascii_isalpha c else ucd_cased c.

Definition to_title_full (c : codepoint) : pystr :=
  if c <? 128 then [ascii_upper c] else ucd_title c.

Definition to_lower_full (c : codepoint) : pystr :=
  if c <? 128 then [ascii_lower c] else ucd_lower c.

Fixpoint do_title (previous_is_cased : bool) (s : pystr) : pystr :=
  match s with
  | [] => []
  | c :: s' =>
      (if previous_is_cased then to_lower_full c else to_title_full c)
        ++ do_title (is_cased c) s'
  end.

Definition title (s : pystr) : pystr := do_title false s.

(** *** [clean_name] *)
Definition clean_name (name : option pystr) : pystr :=
  match name with
  | None => []
  | Some [] => []
  | Some s =>
      let cleaned := join [space] (split s) in
      title cleaned
  end.

(** ** Documents and collections *)

Definition time := N.

(** A payment embedded in a student document.  [amount] is [None] when the
    key is absent, [note] is [None] for a null note. *)
Record payment : Type := {
  amount : option num;
  date : time;
  note : option pystr
}.

(** A document of [db.students].  [st_total_fee] and [st_payments] are
    [None] when the key is absent, which [calc_unpaid] allows for. *)
Record student : Type := {
  st_id : oid;
  st_name : pystr;
  st_class : pystr;
  st_contact : pystr;
  st_total_fee : option num;
  st_payments : option (list payment);
  st_created_at : time;
  st_updated_at : time
}.

(** A document of [db.admins]; a user name can be null. *)
Record admin : Type := {
  ad_id : oid;
  ad_username : option pystr;
  ad_password_hash : pystr;
  ad_created_at : time
}.

(** The [details] payloads the handlers log. *)
Inductive details : Type :=
| details_added (student_id : oid) (name : pystr)
| details_student (student_id : pystr)
| details_payment (student_id : pystr) (amount : num).

(** A document of [db.logs]. *)
Record log_entry : Type := {
  action : string;
  log_details : details;
  by_user : option pystr;
  at_time : time
}.

(** The state a request runs in: the three collections, the session (the
    pending flashes, as pairs of a category and a message, and the admin the
    session is bound to), the readings [datetime.utcnow()] will return and the
    identifiers [insert_one] will generate. *)
Record world : Type := {
  students_col : list student;
  admins_col : list admin;
  logs_col : list log_entry;
  flashes : list (string * string);
  user_id : option oid;
  clock : nat -> time;
  fresh : nat -> oid
}.

Definition set_students (l : list student) (w : world) : world :=
  {| students_col := l; admins_col := admins_col w; logs_col := logs_col w;
     flashes := flashes w; user_id := user_id w; clock := clock w; fresh := fresh w |}.

Definition set_logs (l : list log_entry) (w : world) : world :=
  {| students_col := students_col w; admins_col := admins_col w; logs_col := l;
     flashes := flashes w; user_id := user_id w; clock := clock w; fresh := fresh w |}.

Definition set_flashes (l : list (string * string)) (w : world) : world :=
  {| students_col := students_col w; admins_col := admins_col w; logs_col := logs_col w;
     flashes := l; user_id := user_id w; clock := clock w; fresh := fresh w |}.

Definition set_user_id (u : option oid) (w : world) : world :=
  {| students_col := students_col w; admins_col := admins_col w; logs_col := logs_col w;
     flashes := flashes w; user_id := u; clock := clock w; fresh := fresh w |}.

Definition set_clock (c : nat -> time) (w : world) : world :=
  {| students_col := students_col w; admins_col := admins_col w; logs_col := logs_col w;
     flashes := flashes w; user_id := user_id w; clock := c; fresh := fresh w |}.

Definition set_fresh (f : nat -> oid) (w : world) : world :=
  {| students_col := students_col w; admins_col := admins_col w; logs_col := logs_col w;
     flashes := flashes w; user_id := user_id w; clock := clock w; fresh := f |}.

(** ** The monad of a request handler

    A handler reads and writes the world and either returns or raises; what
    it wrote before raising stays written. *)

Definition M (A : Type) : Type := world -> outcome A * world.

Definition ret {A : Type} (a : A) : M A := fun w => (Return a, w).

Definition bind {A B : Type} (m : M A) (k : A -> M B) : M B :=
  fun w =>
    match m w with
    | (Return a, w') => k a w'
    | (Raise e, w') => (Raise e, w')
    end.

Definition raise {A : Type} (e : exn) : M A := fun w => (Raise e, w).

(** [try: m except ValueError: h] *)
Definition except_ValueError {A : Type} (m : M A) (h : M A) : M A :=
  fun w =>
    match m w with
    | (Raise ValueError, w') => h w'
    | r => r
    end.

Definition gets {A : Type} (f : world -> A) : M A := fun w => (Return (f w), w).
Definition modify (f : world -> world) : M unit := fun w => (Return tt, f w).

End Program.

Declare Scope handler_scope.
Delimit Scope handler_scope with handler.
Notation "x <- m ;; k" := (bind m (fun x => k))
  (at level 61, m at next level, right associativity) : handler_scope.
Notation "m ;;; k" := (bind m (fun _ => k))
  (at level 61, right associativity) : handler_scope.

(** ** The handlers of [app.py] *)

Inductive http_method : Type := GET | POST.

(** A request: its method and its form, a list of fields in the order sent. *)
Record request : Type := {
  method : http_method;
  form : list (string * pystr)
}.

(** The endpoints [url_for] is called on. *)
Inductive endpoint : Type :=
| ep_login
| ep_dashboard
| ep_students_list
| ep_add_student
| ep_edit_student (sid : pystr).

Section Handlers.

Context {R : Runtime}.

Open Scope string_scope.
Open Scope list_scope.
Open Scope handler_scope.

(** What a handler returns: a redirect, or a rendered template with the
    [action] and [student] it is given. *)
Inductive response : Type :=
| redirect (e : endpoint)
| render_template (template : string) (action : option string) (st : option student).

(** [request.form.get(key)] *)
Fixpoint form_get (f : list (string * pystr)) (key : string) : option pystr :=
  match f with
  | [] => None
  | (k, v) :: f' => if String.eqb k key then Some v else form_get f' key
  end.

(** [request.form.get(key, "")] *)
Definition form_get_default (f : list (string * pystr)) (key : string) : pystr :=
  match form_get f key with
  | Some v => v
  | None => []
  end.

(** [float(x or 0)]: an absent or empty field is 0, any other goes through
    [float], which raises [ValueError] on a string that is not a number. *)
Definition float_or_0 (x : option pystr) : M num :=
  match x with
  | None => ret num_zero
  | Some [] => ret num_zero
  | Some s =>
      match float_of_str s with
      | Some v => ret v
      | None => raise ValueError
      end
  end.

(** [ObjectId(sid)] *)
Definition object_id (sid : pystr) : M oid :=
  match ObjectId sid with
  | Some i => ret i
  | None => raise InvalidId
  end.

(** [datetime.utcnow()] *)
Definition utcnow : M time :=
  fun w => (Return (clock w 0%nat), set_clock (fun n => clock w (S n)) w).

(** [flash(message, category)] *)
Definition flash (message category : string) : M unit :=
  modify (fun w => set_flashes (flashes w ++ [(category, message)]) w).

(** [session.pop("_flashes", None)] *)
Definition pop_flashes : M unit := modify (set_flashes []).

(** *** The collections *)

(** [col.find_one(query)]: the first document, in the order of insertion,
    that the query matches. *)
Definition find_one {A : Type} (col : world -> list A) (query : A -> bool) : M (option A) :=
  gets (fun w => find query (col w)).

Fixpoint update_first {A : Type} (query : A -> bool) (f : A -> A) (l : list A) : list A :=
  match l with
  | [] => []
  | d :: l' => if query d then f d :: l' else d :: update_first query f l'
  end.

Fixpoint delete_first {A : Type} (query : A -> bool) (l : list A) : list A :=
  match l with
  | [] => []
  | d :: l' => if query d then l' else d :: delete_first query l'
  end.

(** [students_col.update_one(query, update)]: without a match, nothing. *)
Definition students_update_one (query : student -> bool) (f : student -> student) : M unit :=
  modify (fun w => set_students (update_first query f (students_col w)) w).

(** [students_col.delete_one(query)] *)
Definition students_delete_one (query : student -> bool) : M unit :=
  modify (fun w => set_students (delete_first query (students_col w)) w).

(** [students_col.insert_one(doc)]: the document has no ["_id"] yet, the
    driver generates one; the result is [res.inserted_id]. *)
Definition students_insert_one (doc : oid -> student) : M oid :=
  fun w =>
    let i := fresh w 0%nat in
    (Return i,
     set_fresh (fun n => fresh w (S n)) (set_students (students_col w ++ [doc i]) w)).

Definition logs_insert_one (e : log_entry) : M unit :=
  modify (fun w => set_logs (logs_col w ++ [e]) w).

Definition has_id (i : oid) (s : student) : bool := oid_eqb (st_id s) i.

(** *** The session *)

(** [current_user]: the admin [load_user] finds for the identifier in the
    session, if any; otherwise the user is anonymous. *)
Definition current_user (w : world) : option admin :=
  match user_id w with
  | Some i => find (fun a => oid_eqb (ad_id a) i) (admins_col w)
  | None => None
  end.

Definition is_authenticated (w : world) : bool :=
  match current_user w with
  | Some _ => true
  | None => false
  end.

Definition unauthorized : M response :=
  flash "Please log in to access this page." "message" ;;;
  ret (redirect ep_login).

Definition admin_required (f : M response) : M response :=
  authenticated <- gets is_authenticated ;;
  if authenticated then f else unauthorized.

(** *** [calc_unpaid] *)

(** [sum(...)]: the items are added to 0 from left to right. *)
Definition py_sum (l : list num) : num := fold_left num_add l num_zero.

Definition get_amount (p : payment) : num :=
  match amount p with
  | Some a => a
  | None => num_zero
  end.

Definition get_payments (s : student) : list payment :=
  match st_payments s with
  | Some l => l
  | None => []
  end.

Definition get_total_fee (s : student) : num :=
  match st_total_fee s with
  | Some t => t
  | None => num_zero
  end.

Definition calc_unpaid (s : student) : num :=
  let total_fee := get_total_fee s in
  let payments := get_payments s in
  let received := py_sum (map get_amount payments) in
  num_sub total_fee received.

(** *** [log_action] *)
Definition log_action (act : string) (d : details) : M unit :=
  user <- gets current_user ;;
  let by_ :=
    match user with
    | Some a => ad_username a
    | None => Some (py "system")
    end in
  now <- utcnow ;;
  logs_insert_one {| action := act; log_details := d; by_user := by_; at_time := now |}.

(** *** [login] *)
Definition login (req : request) : M response :=
  match method req with
  | POST =>
      let username := form_get (form req) "username" in
      let password := form_get (form req) "password" in
      adm <- find_one admins_col (fun a => opt_pystr_eqb (ad_username a) username) ;;
      match adm with
      | None =>
          flash "Invalid credentials" "error" ;;;
          ret (redirect ep_login)
      | Some a =>
          match check_password_hash (ad_password_hash a) password with
          | None => raise PasswordError
          | Some false =>
              flash "Invalid credentials" "error" ;;;
              ret (redirect ep_login)
          | Some true =>
              modify (set_user_id (Some (ad_id a))) ;;;
              pop_flashes ;;;
              flash "Logged in" "success" ;;;
              ret (redirect ep_dashboard)
          end
      end
  | GET => ret (render_template "login.html" None None)
  end.

(** *** [add_student] *)

(** The query [{"name": name, "class": cls}] *)
Definition name_and_class (name cls : pystr) (s : student) : bool :=
  pystr_eqb (st_name s) name && pystr_eqb (st_class s) cls.

Definition add_student (req : request) : M response :=
  match method req with
  | POST =>
      let raw_name := form_get (form req) "name" in
      let name := clean_name raw_name in
      let cls := strip (form_get_default (form req) "class") in
      let contact := strip (form_get_default (form req) "contact") in
      total_fee <- float_or_0 (form_get (form req) "total_fee") ;;
      existing <- find_one students_col (name_and_class name cls) ;;
      match existing with
      | Some _ =>
          flash "⚠ A student with this name already exists in this class!" "warning" ;;;
          ret (redirect ep_add_student)
      | None =>
          now <- utcnow ;;
          inserted_id <- students_insert_one (fun i =>
            {| st_id := i; st_name := name; st_class := cls; st_contact := contact;
               st_total_fee := Some total_fee; st_payments := Some [];
               st_created_at := now; st_updated_at := now |}) ;;
          log_action "add_student" (details_added inserted_id name) ;;;
          flash "Student added" "success" ;;;
          ret (redirect ep_students_list)
      end
  | GET => ret (render_template "student_form.html" (Some "Add") None)
  end.

(** *** [edit_student] *)
Definition set_fields (name cls contact : pystr) (total_fee : num) (now : time)
    (s : student) : student :=
  {| st_id := st_id s; st_name := name; st_class := cls; st_contact := contact;
     st_total_fee := Some total_fee; st_payments := st_payments s;
     st_created_at := st_created_at s; st_updated_at := now |}.

Definition edit_student (sid : pystr) (req : request) : M response :=
  i <- object_id sid ;;
  found <- find_one students_col (has_id i) ;;
  match found with
  | None =>
      flash "Student not found" "error" ;;;
      ret (redirect ep_students_list)
  | Some st =>
      match method req with
      | POST =>
          let raw_name := form_get (form req) "name" in
          let name := clean_name raw_name in
          let cls := strip (form_get_default (form req) "class") in
          let contact := strip (form_get_default (form req) "contact") in
          total_fee <- float_or_0 (form_get (form req) "total_fee") ;;
          j <- object_id sid ;;
          existing <- find_one students_col
                        (fun s => name_and_class name cls s && negb (has_id j s)) ;;
          match existing with
          | Some _ =>
              flash "⚠ Another student with this name already exists in this class!" "warning" ;;;
              ret (redirect (ep_edit_student sid))
          | None =>
              k <- object_id sid ;;
              now <- utcnow ;;
              students_update_one (has_id k) (set_fields name cls contact total_fee now) ;;;
              log_action "edit_student" (details_student sid) ;;;
              flash "Student updated" "success" ;;;
              ret (redirect ep_students_list)
          end
      | GET => ret (render_template "student_form.html" (Some "Edit") (Some st))
      end
  end.

(** *** [delete_student] *)
Definition delete_student (sid : pystr) : M response :=
  i <- object_id sid ;;
  students_delete_one (has_id i) ;;;
  log_action "delete_student" (details_student sid) ;;;
  flash "Student deleted" "success" ;;;
  ret (redirect ep_students_list).

(** *** [add_payment] *)
Definition push_payment (p : payment) (now : time) (s : student) : student :=
  {| st_id := st_id s; st_name := st_name s; st_class := st_class s;
     st_contact := st_contact s; st_total_fee := st_total_fee s;
     st_payments := Some (get_payments s ++ [p]);
     st_created_at := st_created_at s; st_updated_at := now |}.

Definition add_payment (sid : pystr) (req : request) : M response :=
  amt <- except_ValueError (float_or_0 (form_get (form req) "amount")) (ret num_zero) ;;
  let note := form_get (form req) "note" in
  d <- utcnow ;;
  let payment := {| amount := Some amt; date := d; note := note |} in
  i <- object_id sid ;;
  now <- utcnow ;;
  students_update_one (has_id i) (push_payment payment now) ;;;
  log_action "add_payment" (details_payment sid amt) ;;;
  flash "Payment recorded" "success" ;;;
  ret (redirect (ep_edit_student sid)).

(** *** The routes

    The four handlers above are the bodies of the functions of these names;
    the decorator [admin_required] puts the gate in front of each. *)
Definition route_add_student (req : request) : M response :=
  admin_required (add_student req).

Definition route_edit_student (sid : pystr) (req : request) : M response :=
  admin_required (edit_student sid req).

Definition route_delete_student (sid : pystr) : M response :=
  admin_required (delete_student sid).

Definition route_add_payment (sid : pystr) (req : request) : M response :=
  admin_required (add_payment sid req).

End Handlers.

(** ** The other handlers of [app.py]

    What they take from the libraries besides the [Runtime]:
    [generate_password_hash] (the hash a call returns, the salt it draws left
    out), the comparison [x > 0] of a number, and two queries of the driver
    whose order of results MongoDB does not fix: [distinct("class")], of which
    only the set of values is known, and [find().sort("created_at", -1)]. *)

Class Backend {R : Runtime} : Type := {
  generate_password_hash : pystr -> pystr;
  num_gt_0 : num -> bool;
  distinct_class : list student -> list pystr;
  distinct_class_NoDup : forall l, NoDup (distinct_class l);
  distinct_class_In :
    forall l c, In c (distinct_class l) <-> exists s, st_class s = c /\ In s l;
  sort_created_desc : list student -> list student
}.

(** The configuration read from the environment; a variable that is not set
    is [None]. *)
Record config : Type := {
  ADMIN_USERNAME : option pystr;
  ADMIN_PASSWORD : option pystr;
  ADMIN_PASSWORD_HASH : option pystr
}.

(** What [ensure_admin] prints. *)
Inductive printed : Type :=
| printed_nothing
| printed_warning
| printed_created.

Section Views.

Context {R : Runtime} {B : Backend}.

Open Scope string_scope.
Open Scope list_scope.
Open Scope handler_scope.

Definition set_admins (l : list admin) (w : world) : world :=
  {| students_col := students_col w; admins_col := l; logs_col := logs_col w;
     flashes := flashes w; user_id := user_id w; clock := clock w; fresh := fresh w |}.

(** [admins_col.insert_one(doc)] *)
Definition admins_insert_one (doc : oid -> admin) : M oid :=
  fun w =>
    let i := fresh w 0%nat in
    (Return i,
     set_fresh (fun n => fresh w (S n)) (set_admins (admins_col w ++ [doc i]) w)).

(** *** [ensure_admin] *)
Definition create_admin (cfg : config) (pw_hash : pystr) : M printed :=
  now <- utcnow ;;
  admins_insert_one (fun i =>
    {| ad_id := i; ad_username := ADMIN_USERNAME cfg; ad_password_hash := pw_hash;
       ad_created_at := now |}) ;;;
  ret printed_created.

Definition ensure_admin (cfg : config) : M printed :=
  n <- gets (fun w => List.length (admins_col w)) ;;
  if (n =? 0)%nat then
    match ADMIN_PASSWORD_HASH cfg with
    | Some (c :: h) => create_admin cfg (c :: h)
    | _ =>
        match ADMIN_PASSWORD cfg with
        | Some (c :: p) => create_admin cfg (generate_password_hash (c :: p))
        | _ => ret printed_warning
        end
    end
  else ret printed_nothing.

(** *** [logout]

    [login_required] of Flask-Login sends an anonymous user to the handler
    registered with [unauthorized_handler], as [admin_required] does. *)
Definition login_required (f : M response) : M response :=
  authenticated <- gets is_authenticated ;;
  if authenticated then f else unauthorized.

Definition logout : M response :=
  modify (set_user_id None) ;;;
  flash "Logged out" "info" ;;;
  ret (redirect ep_login).

Definition route_logout : M response := login_required logout.

(** *** [dashboard] *)

(** The query [{"class": cls}] *)
Definition in_class (cls : pystr) (s : student) : bool := pystr_eqb (st_class s) cls.

(** [sum(p.get("amount", 0) for p in s.get("payments", []))] *)
Definition paid (s : student) : num := py_sum (map get_amount (get_payments s)).

Record class_stat : Type := {
  cs_class : pystr;
  cs_class_total : num;
  cs_collected : num;
  cs_outstanding : num;
  cs_students_count : nat
}.

Record dashboard_page : Type := {
  class_stats : list class_stat;
  total_collected : num;
  total_outstanding : num;
  latest_students : list student
}.

(** The body of the loop over the classes, for one class. *)
Definition class_stat_of (col : list student) (cls : pystr) : class_stat :=
  let students := filter (in_class cls) col in
  let class_total := py_sum (map get_total_fee students) in
  let collected := py_sum (map paid students) in
  let outstanding := num_sub class_total collected in
  {| cs_class := cls; cs_class_total := class_total; cs_collected := collected;
     cs_outstanding := outstanding; cs_students_count := List.length students |}.

Fixpoint dashboard_loop (col : list student) (classes : list pystr)
    (stats : list class_stat) (collected outstanding : num)
  : list class_stat * num * num :=
  match classes with
  | [] => (stats, collected, outstanding)
  | cls :: classes' =>
      let row := class_stat_of col cls in
      dashboard_loop col classes' (stats ++ [row])
        (num_add collected (cs_collected row))
        (num_add outstanding (cs_outstanding row))
  end.

Definition dashboard : M dashboard_page :=
  col <- gets students_col ;;
  let classes := distinct_class col in
  let '(stats, collected, outstanding) := dashboard_loop col classes [] num_zero num_zero in
  let latest := firstn 6 (sort_created_desc col) in
  ret {| class_stats := stats; total_collected := collected;
         total_outstanding := outstanding; latest_students := latest |}.

(** *** [api_class_stats] *)
Record class_series : Type := {
  labels : list pystr;
  collected_series : list num;
  outstanding_series : list num
}.

Fixpoint api_class_stats_loop (col : list student) (classes : list pystr)
    (acc : class_series) : class_series :=
  match classes with
  | [] => acc
  | cls :: classes' =>
      let students := filter (in_class cls) col in
      let coll := py_sum (map paid students) in
      let tot := py_sum (map get_total_fee students) in
      let out := num_sub tot coll in
      api_class_stats_loop col classes'
        {| labels := labels acc ++ [cls];
           collected_series := collected_series acc ++ [coll];
           outstanding_series := outstanding_series acc ++ [out] |}
  end.

Definition api_class_stats : M class_series :=
  col <- gets students_col ;;
  ret (api_class_stats_loop col (distinct_class col)
         {| labels := []; collected_series := []; outstanding_series := [] |}).

(** *** [unpaid] *)
Record unpaid_row : Type := {
  ur_id : oid;
  ur_name : pystr;
  ur_class : pystr;
  ur_unpaid : num
}.

Definition unpaid_loop (docs : list student) : list unpaid_row :=
  fold_left
    (fun unpaid_list s =>
       let unpaid_amt := calc_unpaid s in
       if num_gt_0 unpaid_amt
       then unpaid_list ++ [ {| ur_id := st_id s; ur_name := st_name s;
                                ur_class := st_class s; ur_unpaid := unpaid_amt |} ]
       else unpaid_list)
    docs [].

Definition unpaid : M (list unpaid_row) :=
  docs <- gets students_col ;;
  ret (unpaid_loop docs).

End Views.

(** * The vocabulary of the properties *)

(** ** Runs of characters without white space *)

Definition no_space (t : pystr) : bool := forallb (fun c => negb (isspace c)) t.

(** A token is a non-empty run without white space. *)
Definition token (t : pystr) : Prop := t <> [] /\ no_space t = true.

(** What follows a token: the end of the string, or white space. *)
Definition at_boundary (s : pystr) : Prop :=
  match s with
  | [] => True
  | c :: _ => isspace c = true
  end.

(** [runs s ts]: [ts] are the maximal runs of [s] without white space, from
    left to right. *)
Inductive runs : pystr -> list pystr -> Prop :=
| runs_nil : runs [] []
| runs_space c s ts : isspace c = true -> runs s ts -> runs (c :: s) ts
| runs_token t s ts :
    token t -> at_boundary s -> runs s ts -> runs (t ++ s) (t :: ts).

(** ** Case on ASCII text *)

(** The mapping [do_title] applies to an ASCII character: lower case after
    a cased character, upper case otherwise. *)
Definition ascii_case (previous_is_cased : bool) (c : codepoint) : codepoint :=
  if previous_is_cased then ascii_lower c else ascii_upper c.

Definition ascii_case_row (b : bool) (c : codepoint) : bool :=
  (ascii_case b c <? 128)
  && Bool.eqb (isspace (ascii_case b c)) (isspace c)
  && Bool.eqb (ascii_isalpha (ascii_case b c)) (ascii_isalpha c)
  && (ascii_case b (ascii_case b c) =? ascii_case b c).

Section Vocabulary.

Context {R : Runtime}.

Open Scope string_scope.
Open Scope list_scope.

(** Whether the character after [s] follows a cased character, when the
    character before [s] was cased or not according to [b]. *)
Definition cased_after (b : bool) (s : pystr) : bool :=
  fold_left (fun _ c => is_cased c) s b.

(** Whether the character at index [i] of [s] follows a letter. *)
Definition follows_letter (s : pystr) (i : nat) : bool :=
  match i with
  | O => false
  | S j =>
      match nth_error s j with
      | Some p => ascii_isalpha p
      | None => false
      end
  end.

(** A numeric field that [float(x or 0)] converts: absent, empty, or a
    string [float] accepts. *)
Definition well_formed_number (x : option pystr) : Prop :=
  match x with
  | None => True
  | Some [] => True
  | Some s => float_of_str s <> None
  end.

(** A numeric field that [float] rejects. *)
Definition malformed_number (x : option pystr) : Prop :=
  exists s, x = Some s /\ s <> [] /\ float_of_str s = None.

(** The number read from a field: what [float] reads, and 0 for an absent,
    an empty or a rejected field. *)
Definition amount_of (x : option pystr) : num :=
  match x with
  | None => num_zero
  | Some [] => num_zero
  | Some s =>
      match float_of_str s with
      | Some v => v
      | None => num_zero
      end
  end.

(** The entry [log_action] appends when the clock reads [t]. *)
Definition logged (w : world) (act : string) (d : details) (t : time) : log_entry :=
  {| action := act; log_details := d;
     by_user := match current_user w with
                | Some a => ad_username a
                | None => Some (py "system")
                end;
     at_time := t |}.

(** What an edit leaves alone in a document. *)
Definition kept (s : student) : oid * option (list payment) * time :=
  (st_id s, st_payments s, st_created_at s).

End Vocabulary.

(** ** Case mappings that are stable

    A code point is case-stable when each of the two mappings [do_title] can
    apply to it, the lower-case one after a cased character and the
    title-case one otherwise, gives one code point, which the same mapping
    leaves as it is and which is cased, and white space, exactly when the
    code point is.  Every ASCII character is; U+01F0, whose title-case
    mapping is two code points long, is not. *)

Section CaseStable.

Context {R : Runtime}.

Definition case_stable (c : codepoint) : Prop :=
  forall previous_is_cased : bool,
  exists c' : codepoint,
    (if previous_is_cased then to_lower_full c else to_title_full c) = [c'] /\
    (if previous_is_cased then to_lower_full c' else to_title_full c') = [c'] /\
    is_cased c' = is_cased c /\
    isspace c' = isspace c.

End CaseStable.

(** ** The Name Normalizer as the specification words it

    Each token has its first character in upper case and every other
    character in lower case: only what follows white space is capitalized. *)
Definition capitalize_token (t : pystr) : pystr :=
  match t with
  | [] => []
  | c :: t' => ascii_upper c :: map ascii_lower t'
  end.

Definition normalize_spec (name : option pystr) : pystr :=
  match name with
  | None => []
  | Some [] => []
  | Some s => join [space] (map capitalize_token (split s))
  end.

(** ** A runtime to run the handlers on concrete requests

    Numbers are integers.  [float] reads unsigned decimal literals and
    rejects every other string: on the short literals and on the string
    [abc] of the examples below this is what Python does, elsewhere it is
    not.  An [ObjectId] is read from 24 hexadecimal digits, and a password
    hash is the password itself.  Of the Unicode character database the
    runtime has the row of U+01F0 (small j with caron: cased, title-case
    mapping U+004A U+030C); every other code point from 128 on has the row
    of a character without case, which is the row of U+030C (combining
    caron), the only other one the examples use. *)

Definition digit_value (c : codepoint) : option N :=
  if (48 <=? c) && (c <=? 57) then Some (c - 48) else None.

Definition hex_value (c : codepoint) : option N :=
  if (48 <=? c) && (c <=? 57) then Some (c - 48)
  else if (97 <=? c) && (c <=? 102) then Some (c - 87)
  else if (65 <=? c) && (c <=? 70) then Some (c - 55)
  else None.

Fixpoint digits_value (base : N) (value : codepoint -> option N) (acc : N) (s : pystr)
  : option N :=
  match s with
  | [] => Some acc
  | c :: s' =>
      match value c with
      | Some d => digits_value base value (acc * base + d) s'
      | None => None
      end
  end.

Definition decimal_literal (s : pystr) : option Z :=
  match s with
  | [] => None
  | _ :: _ => option_map Z.of_N (digits_value 10 digit_value 0 s)
  end.

Definition hex24 (s : pystr) : option N :=
  if (List.length s =? 24)%nat then digits_value 16 hex_value 0 s else None.

Definition plain_password (pwhash : pystr) (password : option pystr) : option bool :=
  option_map (pystr_eqb pwhash) password.

Definition example_runtime : Runtime :=
  {| num := Z;
     num_zero := 0%Z;
     num_add := Z.add;
     num_sub := Z.sub;
     float_of_str := decimal_literal;
     oid := N;
     oid_eqb := N.eqb;
     oid_eqb_eq := N.eqb_eq;
     ObjectId := hex24;
     check_password_hash := plain_password;
     ucd_cased := fun c => c =? 496;
     ucd_title := fun c => if c =? 496 then [74; 780] else [c];
     ucd_lower := fun c => [c] |}.

(** ** An office to run them in *)

Module Office.

Open Scope string_scope.
Open Scope list_scope.

#[local] Existing Instance example_runtime.

Definition john : student :=
  {| st_id := 1; st_name := py "John Doe"; st_class := py "5"; st_contact := py "0194";
     st_total_fee := Some 1000%Z;
     st_payments := Some [ {| amount := Some 300%Z; date := 11; note := None |};
                           {| amount := Some 200%Z; date := 12; note := Some (py "cash") |} ];
     st_created_at := 10; st_updated_at := 12 |}.

Definition overpaid : student :=
  {| st_id := 2; st_name := py "Jane Roe"; st_class := py "6"; st_contact := [];
     st_total_fee := Some 100%Z;
     st_payments := Some [ {| amount := Some 150%Z; date := 13; note := None |} ];
     st_created_at := 10; st_updated_at := 13 |}.

Definition root : admin :=
  {| ad_id := 7; ad_username := Some (py "admin"); ad_password_hash := py "secret";
     ad_created_at := 1 |}.

(** One student, one admin, who is logged in. *)
Definition office : world :=
  {| students_col := [john]; admins_col := [root]; logs_col := []; flashes := [];
     user_id := Some 7;
     clock := fun n => 100 + N.of_nat n;
     fresh := fun n => 2 + N.of_nat n |}.

Definition sid_john : pystr := py "000000000000000000000001".
Definition sid_nobody : pystr := py "000000000000000000000009".
Definition sid_bad : pystr := py "xyz".

Definition post (fields : list (string * pystr)) : request :=
  {| method := POST; form := fields |}.

End Office.

(** ** Invariants of the collection of students *)

Section Invariants.

Context {R : Runtime}.

Definition name_class (s : student) : pystr * pystr := (st_name s, st_class s).

(** No two documents have the same name and class. *)
Definition unique_students (l : list student) : Prop := NoDup (map name_class l).

(** No two documents have the same identifier. *)
Definition unique_ids (l : list student) : Prop := NoDup (map st_id l).

(** The row of the unpaid report for a student. *)
Definition unpaid_row_of (s : student) : unpaid_row :=
  {| ur_id := st_id s; ur_name := st_name s; ur_class := st_class s;
     ur_unpaid := calc_unpaid s |}.

End Invariants.

(** Two names with the same words, up to the case of the letters and the
    white space around the words. *)
Definition same_words (s1 s2 : pystr) : Prop :=
  map (map ascii_lower) (split s1) = map (map ascii_lower) (split s2).

(** ** A backend for the example runtime

    Hashes are the passwords themselves, the distinct classes come in the
    order of their last student, and the students are sorted by insertion
    on their creation time. *)

Fixpoint insert_created_desc (s : student (R := example_runtime))
    (l : list (student (R := example_runtime))) : list (student (R := example_runtime)) :=
  match l with
  | [] => [s]
  | t :: l' =>
      if st_created_at t <=? st_created_at s then s :: l
      else t :: insert_created_desc s l'
  end.

Definition example_backend : Backend (R := example_runtime) :=
  Build_Backend example_runtime
    (fun p => p)
    (Z.ltb 0)
    (fun l => nodup (list_eq_dec N.eq_dec) (map st_class l))
    (fun l => NoDup_nodup _ _)
    (fun l c => iff_trans (nodup_In _ _ _) (in_map_iff _ _ _))
    (fun l => fold_right insert_created_desc [] l).

(** ** A school with three students *)

Module School.

Open Scope string_scope.
Open Scope list_scope.

#[local] Existing Instance example_runtime.
#[local] Existing Instance example_backend.

Definition ann : student :=
  {| st_id := 3; st_name := py "Ann Lee"; st_class := py "5"; st_contact := [];
     st_total_fee := Some 400%Z;
     st_payments := Some [ {| amount := Some 400%Z; date := 14; note := None |} ];
     st_created_at := 14; st_updated_at := 14 |}.

Definition school : world :=
  {| students_col := [Office.john; Office.overpaid; ann];
     admins_col := [Office.root]; logs_col := []; flashes := [];
     user_id := Some 7;
     clock := fun n => 200 + N.of_nat n;
     fresh := fun n => 4 + N.of_nat n |}.

(** Before the first run: no admin, nobody logged in. *)
Definition first_run : world :=
  {| students_col := []; admins_col := []; logs_col := []; flashes := [];
     user_id := None;
     clock := fun n => 1 + N.of_nat n;
     fresh := fun n => 7 + N.of_nat n |}.

Definition with_password : config :=
  {| ADMIN_USERNAME := Some (py "admin"); ADMIN_PASSWORD := Some (py "secret");
     ADMIN_PASSWORD_HASH := None |}.

End School.

(** * Properties *)

(** ** Strings: [split] and [join] *)

Lemma cons_run_runs t s ts :
  no_space t = true -> at_boundary s -> runs s ts -> runs (t ++ s) (cons_run t ts).
Proof.
  intros Ht Hb Hr. destruct t as [|c t]; simpl; [exact Hr|].
  apply (runs_token (c :: t) s ts); [split; [discriminate|exact Ht] | exact Hb | exact Hr].
Qed.

Lemma split_run_runs s :
  no_space (fst (split_run s)) = true /\
  exists rest, s = fst (split_run s) ++ rest /\ at_boundary rest /\
               runs rest (snd (split_run s)).
Proof.
  induction s as [|c s IH]; simpl.
  - split; [reflexivity|]. exists []. repeat split. constructor.
  - destruct (split_run s) as [t ts]. simpl in IH.
    destruct IH as [Ht [rest [Hs [Hb Hr]]]].
    destruct (isspace c) eqn:Hc; simpl.
    + split; [reflexivity|]. exists (c :: s). repeat split; [exact Hc|].
      apply runs_space; [exact Hc|]. rewrite Hs. now apply cons_run_runs.
    + split; [now rewrite Hc|]. exists rest. rewrite Hs at 1. now repeat split.
Qed.

(** [split] returns the maximal runs without white space. *)
Lemma split_runs s : runs s (split s).
Proof.
  unfold split. destruct (split_run_runs s) as [Ht [rest [Hs [Hb Hr]]]].
  destruct (split_run s) as [t ts]. simpl in *. rewrite Hs. now apply cons_run_runs.
Qed.

Lemma split_run_token t s :
  no_space t = true -> at_boundary s ->
  split_run (t ++ s) = (t, snd (split_run (t ++ s))) /\
  snd (split_run (t ++ s)) = split s.
Proof.
  intros Ht Hb. induction t as [|c t IH]; simpl.
  - unfold split. destruct s as [|d s]; simpl; [now split|].
    simpl in Hb. destruct (split_run s) as [u us]. rewrite Hb. now split.
  - simpl in Ht. apply andb_true_iff in Ht. destruct Ht as [Hc Ht].
    apply negb_true_iff in Hc. destruct (IH Ht) as [E1 E2].
    destruct (split_run (t ++ s)) as [u us]. simpl in *. rewrite Hc. simpl.
    inversion E1; subst. now split.
Qed.

(** The runs of a string are unique: they are what [split] returns. *)
Lemma runs_split s ts : runs s ts -> split s = ts.
Proof.
  induction 1 as [|c s ts Hc _ IH|t s ts [Hne Ht] Hb _ IH].
  - reflexivity.
  - unfold split in *. simpl. destruct (split_run s) as [u us]. now rewrite Hc.
  - destruct (split_run_token t s Ht Hb) as [E1 E2].
    unfold split at 1. rewrite E1, E2, IH. destruct t; [contradiction|reflexivity].
Qed.

Lemma runs_join ts : Forall token ts -> runs (join [space] ts) ts.
Proof.
  induction 1 as [|t ts Ht Hts IH]; simpl; [constructor|].
  destruct ts as [|u us].
  - rewrite <- (app_nil_r t) at 1. apply runs_token; [exact Ht|exact I|constructor].
  - apply runs_token; [exact Ht|reflexivity|]. apply runs_space; [reflexivity|exact IH].
Qed.

(** Splitting what [join] made of tokens gives the tokens back. *)
Lemma split_join ts : Forall token ts -> split (join [space] ts) = ts.
Proof. intro H. apply runs_split, runs_join, H. Qed.

Lemma runs_tokens s ts : runs s ts -> Forall token ts.
Proof. induction 1; auto. Qed.

Lemma split_tokens s : Forall token (split s).
Proof. apply (runs_tokens s (split s)), split_runs. Qed.

Lemma no_space_filter t : no_space t = true -> filter (fun c => negb (isspace c)) t = t.
Proof.
  induction t as [|c t IH]; simpl; [reflexivity|].
  intro H. apply andb_true_iff in H. destruct H as [Hc Ht]. rewrite Hc, IH; auto.
Qed.

(** No character other than white space is lost or moved. *)
Lemma runs_concat s ts : runs s ts -> List.concat ts = filter (fun c => negb (isspace c)) s.
Proof.
  induction 1 as [|c s ts Hc _ IH|t s ts [_ Ht] _ _ IH]; simpl.
  - reflexivity.
  - now rewrite Hc.
  - rewrite filter_app, no_space_filter, IH; auto.
Qed.

(** ** Strings: the ASCII rows *)

Lemma ascii_cases (P : codepoint -> bool) :
  forallb P (map N.of_nat (seq 0 128)) = true -> forall c, c < 128 -> P c = true.
Proof.
  intros H c Hc. rewrite forallb_forall in H. apply H.
  apply in_map_iff. exists (N.to_nat c). split; [lia|]. apply in_seq. lia.
Qed.

Lemma ascii_case_facts b c :
  c < 128 ->
  ascii_case b c < 128 /\
  isspace (ascii_case b c) = isspace c /\
  ascii_isalpha (ascii_case b c) = ascii_isalpha c /\
  ascii_case b (ascii_case b c) = ascii_case b c.
Proof.
  intro Hc.
  assert (H : ascii_case_row b c = true).
  { revert c Hc. apply ascii_cases. destruct b; vm_compute; reflexivity. }
  unfold ascii_case_row in H. repeat rewrite andb_true_iff in H.
  destruct H as [[[H1 H2] H3] H4].
  apply N.ltb_lt in H1. apply Bool.eqb_prop in H2, H3. apply N.eqb_eq in H4.
  now repeat split.
Qed.

Lemma is_ascii_cons c s : is_ascii (c :: s) = true <-> c < 128 /\ is_ascii s = true.
Proof. unfold is_ascii. simpl. rewrite andb_true_iff, N.ltb_lt. reflexivity. Qed.

Lemma is_ascii_app s u : is_ascii (s ++ u) = true <-> is_ascii s = true /\ is_ascii u = true.
Proof. unfold is_ascii. rewrite forallb_app, andb_true_iff. reflexivity. Qed.

Lemma runs_ascii s ts :
  runs s ts -> is_ascii s = true -> Forall (fun t => is_ascii t = true) ts.
Proof.
  induction 1 as [|c s ts _ _ IH|t s ts _ _ _ IH]; intro Ha.
  - constructor.
  - apply is_ascii_cons in Ha. tauto.
  - apply is_ascii_app in Ha. constructor; tauto.
Qed.

Lemma join_ascii ts :
  Forall (fun t => is_ascii t = true) ts -> is_ascii (join [space] ts) = true.
Proof.
  induction 1 as [|t ts Ht _ IH]; simpl; [reflexivity|].
  destruct ts; [exact Ht|]. apply is_ascii_app. split; [exact Ht|].
  apply is_ascii_cons. split; [reflexivity|exact IH].
Qed.

(** ** Strings: [title] and [clean_name] *)

Section TitleFacts.

Context {R : Runtime}.

Lemma case_ascii (b : bool) (c : codepoint) :
  c < 128 -> (if b then to_lower_full c else to_title_full c) = [ascii_case b c].
Proof.
  intro Hc. apply N.ltb_lt in Hc. unfold to_lower_full, to_title_full, ascii_case.
  rewrite Hc. now destruct b.
Qed.

Lemma is_cased_ascii c : c < 128 -> is_cased c = ascii_isalpha c.
Proof. intro Hc. apply N.ltb_lt in Hc. unfold is_cased. now rewrite Hc. Qed.

Lemma do_title_cons_ascii b c s :
  c < 128 -> do_title b (c :: s) = ascii_case b c :: do_title (ascii_isalpha c) s.
Proof. intro Hc. simpl. now rewrite case_ascii, is_cased_ascii. Qed.

Lemma do_title_app b s u :
  do_title b (s ++ u) = do_title b s ++ do_title (cased_after b s) u.
Proof.
  revert b. induction s as [|c s IH]; intro b; simpl; [reflexivity|].
  now rewrite IH, app_assoc.
Qed.

(** Title-casing goes through the single spaces between tokens: a space has
    no case and starts a new word. *)
Lemma title_join ts : title (join [space] ts) = join [space] (map title ts).
Proof.
  unfold title. induction ts as [|t ts IH]; simpl; [reflexivity|].
  destruct ts as [|u us]; [reflexivity|].
  rewrite do_title_app. f_equal.
  replace (do_title (cased_after false t) ([space] ++ join [space] (u :: us)))
    with ([space] ++ do_title false (join [space] (u :: us))).
  - now rewrite IH.
  - simpl. now destruct (cased_after false t).
Qed.

Lemma do_title_length b s : is_ascii s = true -> List.length (do_title b s) = List.length s.
Proof.
  revert b. induction s as [|c s IH]; intros b Ha; [reflexivity|].
  apply is_ascii_cons in Ha. destruct Ha as [Hc Ha].
  rewrite do_title_cons_ascii by exact Hc. simpl. now rewrite IH.
Qed.

Lemma do_title_ascii b s : is_ascii s = true -> is_ascii (do_title b s) = true.
Proof.
  revert b. induction s as [|c s IH]; intros b Ha; [reflexivity|].
  apply is_ascii_cons in Ha. destruct Ha as [Hc Ha].
  rewrite do_title_cons_ascii by exact Hc. apply is_ascii_cons.
  split; [now apply ascii_case_facts | now apply IH].
Qed.

Lemma do_title_no_space b s :
  is_ascii s = true -> no_space (do_title b s) = no_space s.
Proof.
  revert b. induction s as [|c s IH]; intros b Ha; [reflexivity|].
  apply is_ascii_cons in Ha. destruct Ha as [Hc Ha].
  rewrite do_title_cons_ascii by exact Hc. simpl. rewrite IH by exact Ha.
  destruct (ascii_case_facts b c Hc) as [_ [E _]]. now rewrite E.
Qed.

(** On ASCII text, title-casing twice is title-casing once. *)
Lemma do_title_idempotent b s :
  is_ascii s = true -> do_title b (do_title b s) = do_title b s.
Proof.
  revert b. induction s as [|c s IH]; intros b Ha; [reflexivity|].
  apply is_ascii_cons in Ha. destruct Ha as [Hc Ha].
  destruct (ascii_case_facts b c Hc) as [H1 [_ [H3 H4]]].
  rewrite do_title_cons_ascii by exact Hc.
  rewrite do_title_cons_ascii by exact H1.
  now rewrite H3, H4, IH.
Qed.

Lemma title_token t : is_ascii t = true -> token t -> token (title t).
Proof.
  intros Ha [Hne Hs]. split.
  - intro E. apply (f_equal (@List.length _)) in E. unfold title in E.
    rewrite do_title_length in E by exact Ha. destruct t; [contradiction|discriminate].
  - unfold title. now rewrite do_title_no_space.
Qed.

Lemma do_title_nth b s i c :
  is_ascii s = true -> nth_error s i = Some c ->
  nth_error (do_title b s) i =
    Some (ascii_case (match i with O => b | S _ => follows_letter s i end) c).
Proof.
  revert b i. induction s as [|c0 s IH]; intros b i Ha Hn.
  - destruct i; discriminate.
  - apply is_ascii_cons in Ha. destruct Ha as [Hc Ha].
    rewrite do_title_cons_ascii by exact Hc. destruct i as [|j]; simpl in *.
    + now inversion Hn.
    + rewrite (IH _ _ Ha Hn). destruct j; reflexivity.
Qed.

(** In a title-cased ASCII word a letter is in upper case when it comes first
    or follows a character that is not a letter, in lower case when it follows
    a letter; other characters are unchanged. *)
Lemma title_nth s i c :
  is_ascii s = true -> nth_error s i = Some c ->
  nth_error (title s) i =
    Some (if follows_letter s i then ascii_lower c else ascii_upper c).
Proof.
  intros Ha Hn. unfold title. rewrite (do_title_nth false s i c Ha Hn).
  now destruct i.
Qed.

Lemma isalpha_ascii c : ascii_isalpha c = true -> c < 128.
Proof.
  unfold ascii_isalpha, ascii_isupper, ascii_islower.
  rewrite orb_true_iff, !andb_true_iff, !N.leb_le. lia.
Qed.

Lemma do_title_letters t :
  forallb ascii_isalpha t = true -> do_title true t = map ascii_lower t.
Proof.
  induction t as [|c t IH]; [reflexivity|]. simpl forallb.
  rewrite andb_true_iff. intros [Hc Ht].
  rewrite do_title_cons_ascii by now apply isalpha_ascii.
  rewrite Hc, IH by exact Ht. reflexivity.
Qed.

(** On a word of letters, the title case is the capitalization of the
    specification. *)
Lemma title_letters t :
  forallb ascii_isalpha t = true -> title t = capitalize_token t.
Proof.
  destruct t as [|c t]; [reflexivity|]. simpl forallb.
  rewrite andb_true_iff. intros [Hc Ht]. unfold title.
  rewrite do_title_cons_ascii by now apply isalpha_ascii.
  rewrite Hc, do_title_letters by exact Ht. reflexivity.
Qed.

Lemma clean_name_join s : clean_name (Some s) = join [space] (map title (split s)).
Proof.
  destruct s as [|c s]; [reflexivity|]. unfold clean_name. apply title_join.
Qed.

End TitleFacts.


(** ** The Name Normalizer *)

Section Normalizer.

Context {R : Runtime}.

(** The example of the docstring of [clean_name]. *)
Example clean_name_docstring :
  clean_name (Some (py "  moHaMmAd   fairoz  ")) = py "Mohammad Fairoz".
Proof. reflexivity. Qed.

(** Where every word is made of letters only, [clean_name] is the normalizer
    of the specification. *)
Lemma clean_name_letters (x : option pystr) :
  match x with
  | Some s => Forall (fun t => forallb ascii_isalpha t = true) (split s)
  | None => True
  end ->
  clean_name x = normalize_spec x.
Proof.
  destruct x as [s|]; [|reflexivity]. intro H.
  rewrite clean_name_join. destruct s as [|c s]; [reflexivity|].
  unfold normalize_spec. f_equal. apply map_ext_in. intros t Ht.
  rewrite Forall_forall in H. apply title_letters, H, Ht.
Qed.

(** C2, as amended.  [clean_name] returns the empty string for an absent or
    empty name; otherwise its result is the maximal runs of the name without
    white space, each title-cased, with one space between two of them.  In a
    title-cased run of ASCII text, a letter is in upper case when it is first
    in the run or follows a character that is not a letter (an apostrophe, a
    hyphen, a digit), and in lower case when it follows a letter. *)
Theorem clean_name_title_case :
  (clean_name None = [] /\ clean_name (Some []) = []) /\
  (forall s : pystr,
     runs s (split s) /\
     clean_name (Some s) = join [space] (map title (split s))) /\
  (forall t : pystr,
     is_ascii t = true ->
     List.length (title t) = List.length t /\
     forall i c, nth_error t i = Some c ->
       nth_error (title t) i =
         Some (if follows_letter t i then ascii_lower c else ascii_upper c)).
Proof.
  split; [split; reflexivity|]. split.
  - intro s. split; [apply split_runs|apply clean_name_join].
  - intros t Ha. split; [now apply do_title_length|].
    intros i c Hn. now apply title_nth.
Qed.

(** On ASCII text (and on an absent name) [clean_name] is idempotent. *)
Lemma clean_name_idempotent_ascii (x : option pystr) :
  match x with Some s => is_ascii s = true | None => True end ->
  clean_name (Some (clean_name x)) = clean_name x.
Proof.
  destruct x as [s|]; [|reflexivity]. intro Ha.
  rewrite (clean_name_join s), clean_name_join.
  assert (Hr : runs s (split s)) by apply split_runs.
  assert (Hts : Forall (fun t => is_ascii t = true) (split s))
    by (apply (runs_ascii s); assumption).
  assert (Htk : Forall token (split s)) by apply split_tokens.
  rewrite split_join.
  - f_equal. rewrite map_map. apply map_ext_in. intros t Ht.
    rewrite Forall_forall in Hts. apply do_title_idempotent, Hts, Ht.
  - rewrite Forall_forall in *. intros t' Ht'. apply in_map_iff in Ht'.
    destruct Ht' as [t [E Ht]]. subst t'. apply title_token; auto.
Qed.

(** Every ASCII character is case-stable. *)
Lemma ascii_case_stable (c : codepoint) : c < 128 -> case_stable c.
Proof.
  intros Hc b. destruct (ascii_case_facts b c Hc) as [H1 [H2 [H3 H4]]].
  exists (ascii_case b c). rewrite !case_ascii by assumption.
  rewrite !is_cased_ascii by assumption. rewrite H4. now repeat split.
Qed.

Lemma is_ascii_case_stable (s : pystr) : is_ascii s = true -> Forall case_stable s.
Proof.
  induction s as [|c s IH]; intro Ha; [constructor|].
  apply is_ascii_cons in Ha. destruct Ha as [Hc Ha].
  constructor; [now apply ascii_case_stable | now apply IH].
Qed.

Lemma runs_Forall (P : codepoint -> Prop) (s : pystr) (ts : list pystr) :
  runs s ts -> Forall P s -> Forall (Forall P) ts.
Proof.
  induction 1 as [|c s ts _ _ IH|t s ts _ _ _ IH]; intro Hs.
  - constructor.
  - apply IH. now inversion Hs.
  - apply Forall_app in Hs. destruct Hs as [Ht Hs]. constructor; auto.
Qed.

(** Title-casing a string of case-stable code points changes none of them
    into several, and a second pass changes nothing. *)
Lemma do_title_stable (b : bool) (s : pystr) :
  Forall case_stable s ->
  do_title b (do_title b s) = do_title b s /\
  no_space (do_title b s) = no_space s /\
  (s <> [] -> do_title b s <> []).
Proof.
  intro Hs. revert b. induction Hs as [|c s Hc _ IH]; intro b.
  - repeat split. intro H. now elim H.
  - destruct (Hc b) as [c' [E1 [E2 [E3 E4]]]].
    destruct (IH (is_cased c)) as [I1 [I2 _]].
    assert (E : do_title b (c :: s) = c' :: do_title (is_cased c) s).
    { cbn [do_title]. destruct b; cbv iota in E1 |- *; now rewrite E1. }
    rewrite E. split; [|split].
    + cbn [do_title]. rewrite E3, I1. destruct b; cbv iota in E2 |- *; now rewrite E2.
    + unfold no_space in *. cbn [forallb]. now rewrite E4, I2.
    + discriminate.
Qed.

(** C8, as amended.  [clean_name] is idempotent on every name made of
    case-stable code points (and on an absent name), whatever the rows of
    the Unicode character database outside ASCII are: on these names a
    second normalization changes nothing. *)
Theorem clean_name_idempotent_stable (x : option pystr) :
  match x with Some s => Forall case_stable s | None => True end ->
  clean_name (Some (clean_name x)) = clean_name x.
Proof.
  destruct x as [s|]; [|reflexivity]. intro Hs.
  rewrite (clean_name_join s), clean_name_join.
  pose proof (runs_Forall case_stable s (split s) (split_runs s) Hs) as Hts.
  pose proof (split_tokens s) as Htk.
  rewrite Forall_forall in Hts, Htk.
  rewrite split_join.
  - f_equal. rewrite map_map. apply map_ext_in. intros t Ht.
    apply (do_title_stable false t), Hts, Ht.
  - apply Forall_forall. intros t' Ht'. apply in_map_iff in Ht'.
    destruct Ht' as [t [E Ht]]. subst t'.
    destruct (do_title_stable false t (Hts t Ht)) as [_ [H2 H3]].
    destruct (Htk t Ht) as [Hne Hns]. split; [now apply H3|].
    unfold title. now rewrite H2.
Qed.

End Normalizer.

(** Witness of C2: the N of O'Neil. *)
Lemma clean_name_title_case_witness :
  nth_error (title (R := example_runtime) (py "o'neil")) 2 = Some 78.
Proof.
  destruct (clean_name_title_case (R := example_runtime)) as [_ [_ H]].
  destruct (H (py "o'neil") eq_refl) as [_ Hn].
  exact (Hn 2%nat 110 eq_refl).
Defined.

(** Counterexample to C2 as stated: the letter after an apostrophe is
    capitalized. *)
Lemma clean_name_apostrophe :
  clean_name (R := example_runtime) (Some (py "o'neil")) = py "O'Neil" /\
  clean_name (R := example_runtime) (Some (py "o'neil")) <> normalize_spec (Some (py "o'neil")).
Proof. split; [reflexivity|]. vm_compute. discriminate. Qed.

(** A name in two scripts: four ASCII characters, then the three code
    points U+0930, U+093E and U+092E of Devanagari, which have no case. *)
Lemma two_scripts_stable :
  Forall (case_stable (R := example_runtime)) (py " raM " ++ [2352; 2366; 2350]).
Proof.
  repeat (constructor;
          [intro b; destruct b; eexists; repeat split; reflexivity|]).
  constructor.
Qed.

(** Witness of C8. *)
Lemma clean_name_idempotent_stable_witness :
  clean_name (R := example_runtime)
    (Some (clean_name (R := example_runtime) (Some (py " raM " ++ [2352; 2366; 2350]))))
  = clean_name (R := example_runtime) (Some (py " raM " ++ [2352; 2366; 2350])).
Proof.
  apply (clean_name_idempotent_stable (R := example_runtime)
           (Some (py " raM " ++ [2352; 2366; 2350]))).
  exact two_scripts_stable.
Defined.

(** Counterexample to C8 as stated: the title-case mapping of U+01F0 ends in
    a combining mark, which has no case, so that the x after it is
    capitalized on the second pass. *)
Lemma clean_name_not_idempotent :
  clean_name (R := example_runtime) (Some [496; 120]) = [74; 780; 120] /\
  clean_name (R := example_runtime) (Some [74; 780; 120]) = [74; 780; 88] /\
  clean_name (R := example_runtime) (Some (clean_name (R := example_runtime) (Some [496; 120])))
    <> clean_name (R := example_runtime) (Some [496; 120]).
Proof. split; [reflexivity|]. split; [reflexivity|]. vm_compute. discriminate. Qed.

(** ** The handlers

    The theorems below are about the handlers as their functions define
    them, run for a request that has passed [admin_required];
    [admin_required_gate] says what the decorator adds. *)

Section HandlerFacts.

Context {R : Runtime}.

Open Scope string_scope.
Open Scope list_scope.

Lemma float_or_0_well_formed x w :
  well_formed_number x -> float_or_0 x w = (Return (amount_of x), w).
Proof.
  destruct x as [[|c s]|]; unfold float_or_0, amount_of; simpl; intro H;
    try reflexivity.
  destruct (float_of_str (c :: s)) as [v|]; [reflexivity|contradiction].
Qed.

Lemma float_or_0_malformed x w :
  malformed_number x -> float_or_0 x w = (Raise ValueError, w).
Proof.
  intros [s [-> [Hne Hf]]]. destruct s as [|c s]; [contradiction|].
  unfold float_or_0. now rewrite Hf.
Qed.

Lemma number_cases x : well_formed_number x \/ malformed_number x.
Proof.
  destruct x as [[|c s]|]; simpl; auto.
  destruct (float_of_str (c :: s)) eqn:E.
  - left. discriminate.
  - right. exists (c :: s). repeat split; [discriminate|exact E].
Qed.

(** In [add_payment] the conversion never raises out of the [try]. *)
Lemma amount_recovered x w :
  except_ValueError (float_or_0 x) (ret num_zero) w = (Return (amount_of x), w).
Proof.
  destruct x as [[|c s]|]; try reflexivity.
  unfold except_ValueError, float_or_0, amount_of.
  now destruct (float_of_str (c :: s)).
Qed.

Lemma amount_of_malformed x : malformed_number x -> amount_of x = num_zero.
Proof.
  intros [s [-> [Hne Hf]]]. destruct s; [contradiction|]. simpl. now rewrite Hf.
Qed.

Lemma update_first_none {A : Type} (q : A -> bool) (f : A -> A) (l : list A) :
  find q l = None -> update_first q f l = l.
Proof.
  induction l as [|d l IH]; simpl; [reflexivity|].
  destruct (q d); [discriminate|]. intro H. now rewrite IH.
Qed.

Lemma delete_first_none {A : Type} (q : A -> bool) (l : list A) :
  find q l = None -> delete_first q l = l.
Proof.
  induction l as [|d l IH]; simpl; [reflexivity|].
  destruct (q d); [discriminate|]. intro H. now rewrite IH.
Qed.

(** [update_one] rewrites the first document the query matches and leaves
    the documents before and after it as they are. *)
Lemma update_first_some {A : Type} (q : A -> bool) (f : A -> A) (l : list A) (d : A) :
  find q l = Some d ->
  exists l1 l2, l = l1 ++ d :: l2 /\ find q l1 = None /\
                update_first q f l = l1 ++ f d :: l2.
Proof.
  induction l as [|e l IH]; simpl; [discriminate|].
  destruct (q e) eqn:E.
  - intro H. inversion H; subst. exists [], l. now repeat split.
  - intro H. destruct (IH H) as [l1 [l2 [E1 [E2 E3]]]].
    exists (e :: l1), l2. simpl. rewrite E, E3, E1 at 1. now repeat split.
Qed.

Lemma update_first_map {A B : Type} (g : A -> B) (q : A -> bool) (f : A -> A) (l : list A) :
  (forall d, g (f d) = g d) -> map g (update_first q f l) = map g l.
Proof.
  intro H. induction l as [|d l IH]; simpl; [reflexivity|].
  destruct (q d); simpl; [now rewrite H | now rewrite IH].
Qed.

(** *** The gate *)

(** Behind the gate, a logged-in admin gets the handler itself; anyone else
    is sent to the login page and the handler does not run. *)
Lemma admin_required_gate (f : M response) (w : world) :
  admin_required f w
  = if is_authenticated w then f w
    else (Return (redirect ep_login),
          set_flashes (flashes w ++ [("message", "Please log in to access this page.")]) w).
Proof. unfold admin_required, bind, gets. now destruct (is_authenticated w). Qed.

(** *** Identifiers that are not [ObjectId]s *)

(** C9.  When the path segment is not a valid identifier, [edit_student],
    [delete_student] and [add_payment] end in the [InvalidId] that
    [ObjectId(sid)] raises, which no handler catches: no not-found notice, no
    silent success, and neither a student document nor the log is written. *)
Theorem invalid_id_raises (sid : pystr) (req : request) (w : world) :
  ObjectId sid = None ->
  edit_student sid req w = (Raise InvalidId, w) /\
  delete_student sid w = (Raise InvalidId, w) /\
  fst (add_payment sid req w) = Raise InvalidId /\
  students_col (snd (add_payment sid req w)) = students_col w /\
  logs_col (snd (add_payment sid req w)) = logs_col w /\
  flashes (snd (add_payment sid req w)) = flashes w.
Proof.
  intro H. split; [|split].
  - unfold edit_student, bind, object_id. now rewrite H.
  - unfold delete_student, bind, object_id. now rewrite H.
  - unfold add_payment, bind. rewrite amount_recovered.
    unfold utcnow, object_id. rewrite H. simpl. now repeat split.
Qed.

(** *** Identifiers of no stored student *)

Lemma delete_student_run (sid : pystr) (w : world) (i : oid) :
  ObjectId sid = Some i ->
  fst (delete_student sid w) = Return (redirect ep_students_list) /\
  students_col (snd (delete_student sid w)) = delete_first (has_id i) (students_col w) /\
  logs_col (snd (delete_student sid w))
    = logs_col w ++ [logged w "delete_student" (details_student sid) (clock w 0%nat)] /\
  flashes (snd (delete_student sid w)) = flashes w ++ [("success", "Student deleted")].
Proof.
  intro H. unfold delete_student, bind, object_id. rewrite H. simpl. now repeat split.
Qed.

Lemma add_payment_run (sid : pystr) (req : request) (w : world) (i : oid) :
  ObjectId sid = Some i ->
  let amt := amount_of (form_get (form req) "amount") in
  let p := {| amount := Some amt; date := clock w 0%nat;
              note := form_get (form req) "note" |} in
  fst (add_payment sid req w) = Return (redirect (ep_edit_student sid)) /\
  students_col (snd (add_payment sid req w))
    = update_first (has_id i) (push_payment p (clock w 1%nat)) (students_col w) /\
  logs_col (snd (add_payment sid req w))
    = logs_col w ++ [logged w "add_payment" (details_payment sid amt) (clock w 2%nat)] /\
  flashes (snd (add_payment sid req w)) = flashes w ++ [("success", "Payment recorded")].
Proof.
  intro H. unfold add_payment, bind. rewrite amount_recovered.
  unfold utcnow, object_id. rewrite H. simpl. now repeat split.
Qed.

(** C6.  With a valid identifier that no stored student has, [delete_student]
    and [add_payment] leave the student documents as they are and answer as
    they do on success: they return, with the redirect and the success notice
    they give whatever the collection holds. *)
Theorem missing_student_noop (sid : pystr) (req : request) (w : world) (i : oid) :
  ObjectId sid = Some i ->
  find (has_id i) (students_col w) = None ->
  (students_col (snd (delete_student sid w)) = students_col w /\
   students_col (snd (add_payment sid req w)) = students_col w) /\
  (forall w0 : world,
     fst (delete_student sid w0) = Return (redirect ep_students_list) /\
     flashes (snd (delete_student sid w0)) = flashes w0 ++ [("success", "Student deleted")] /\
     fst (add_payment sid req w0) = Return (redirect (ep_edit_student sid)) /\
     flashes (snd (add_payment sid req w0)) = flashes w0 ++ [("success", "Payment recorded")]).
Proof.
  intros H Hf. split.
  - destruct (delete_student_run sid w i H) as [_ [-> _]].
    destruct (add_payment_run sid req w i H) as [_ [-> _]].
    now rewrite delete_first_none, update_first_none.
  - intro w0.
    destruct (delete_student_run sid w0 i H) as [E1 [_ [_ E2]]].
    destruct (add_payment_run sid req w0 i H) as [E3 [_ [_ E4]]].
    now repeat split.
Qed.

(** C10.  With a valid identifier that no stored student has,
    [delete_student] and [add_payment] still append their entry to the log
    and flash their success notice, although no student document changed. *)
Theorem missing_student_logged (sid : pystr) (req : request) (w : world) (i : oid) :
  ObjectId sid = Some i ->
  find (has_id i) (students_col w) = None ->
  (students_col (snd (delete_student sid w)) = students_col w /\
   logs_col (snd (delete_student sid w))
     = logs_col w ++ [logged w "delete_student" (details_student sid) (clock w 0%nat)] /\
   flashes (snd (delete_student sid w)) = flashes w ++ [("success", "Student deleted")]) /\
  (students_col (snd (add_payment sid req w)) = students_col w /\
   logs_col (snd (add_payment sid req w))
     = logs_col w ++ [logged w "add_payment"
                        (details_payment sid (amount_of (form_get (form req) "amount")))
                        (clock w 2%nat)] /\
   flashes (snd (add_payment sid req w)) = flashes w ++ [("success", "Payment recorded")]).
Proof.
  intros H Hf.
  destruct (delete_student_run sid w i H) as [_ [E1 [E2 E3]]].
  destruct (add_payment_run sid req w i H) as [_ [E4 [E5 E6]]].
  rewrite E1, E4, delete_first_none, update_first_none by exact Hf.
  now repeat split.
Qed.

(** *** Login *)

(** C7.  A login with a user name no admin has ends in the redirect to the
    login page with the notice "Invalid credentials".  A login with the user
    name of an admin ends in the same way, from the same state to the same
    state, when [check_password_hash] finds that the password does not match
    the hash.  When [check_password_hash] raises, as it does on a request
    that has no password field, the exception leaves the handler: this
    failed login does not end as the one with an unknown user name does. *)
Theorem login_failure_outcomes (req1 req2 : request) (w : world) (a : admin) :
  method req1 = POST -> method req2 = POST ->
  find (fun a => opt_pystr_eqb (ad_username a) (form_get (form req1) "username"))
       (admins_col w) = None ->
  find (fun a => opt_pystr_eqb (ad_username a) (form_get (form req2) "username"))
       (admins_col w) = Some a ->
  login req1 w = (Return (redirect ep_login),
                  set_flashes (flashes w ++ [("error", "Invalid credentials")]) w) /\
  (check_password_hash (ad_password_hash a) (form_get (form req2) "password") = Some false ->
   login req2 w = login req1 w) /\
  (check_password_hash (ad_password_hash a) (form_get (form req2) "password") = None ->
   login req2 w = (Raise PasswordError, w) /\ login req2 w <> login req1 w).
Proof.
  intros M1 M2 H1 H2.
  assert (E1 : login req1 w
               = (Return (redirect ep_login),
                  set_flashes (flashes w ++ [("error", "Invalid credentials")]) w)).
  { unfold login, bind, find_one, gets. now rewrite M1, H1. }
  split; [exact E1|]. split.
  - intro Hp. rewrite E1. unfold login, bind, find_one, gets. now rewrite M2, H2, Hp.
  - intro Hp.
    assert (E2 : login req2 w = (Raise PasswordError, w)).
    { unfold login, bind, find_one, gets. now rewrite M2, H2, Hp. }
    split; [exact E2|]. rewrite E1, E2. intro E. discriminate E.
Qed.

(** *** Numeric fields *)

(** C1.  A numeric field that [float] rejects is recovered as 0 by
    [add_payment] only: the payment is recorded with amount 0 and the
    handler answers as on success.  In [add_student] and [edit_student] the
    conversion stands outside any [try]: the [ValueError] leaves the handler
    and nothing is written. *)
Theorem malformed_number_handling (x : option pystr) :
  malformed_number x ->
  (forall sid req w i,
     form_get (form req) "amount" = x -> ObjectId sid = Some i ->
     fst (add_payment sid req w) = Return (redirect (ep_edit_student sid)) /\
     students_col (snd (add_payment sid req w))
       = update_first (has_id i)
           (push_payment {| amount := Some num_zero; date := clock w 0%nat;
                            note := form_get (form req) "note" |} (clock w 1%nat))
           (students_col w)) /\
  (forall req w,
     method req = POST -> form_get (form req) "total_fee" = x ->
     add_student req w = (Raise ValueError, w)) /\
  (forall sid req w i st,
     method req = POST -> form_get (form req) "total_fee" = x ->
     ObjectId sid = Some i -> find (has_id i) (students_col w) = Some st ->
     edit_student sid req w = (Raise ValueError, w)).
Proof.
  intro Hx. split; [|split].
  - intros sid req w i Hf Hi.
    destruct (add_payment_run sid req w i Hi) as [E1 [E2 _]].
    rewrite Hf, (amount_of_malformed x Hx) in E2. now split.
  - intros req w Hm Hf. unfold add_student, bind. rewrite Hm, Hf.
    now rewrite (float_or_0_malformed x w Hx).
  - intros sid req w i st Hm Hf Hi Hs. unfold edit_student, bind, object_id, find_one, gets.
    rewrite Hi. simpl. rewrite Hs, Hm, Hf. now rewrite (float_or_0_malformed x w Hx).
Qed.

(** *** Creating a student *)

(** What [add_student] does when no stored student has the name and the
    class, and the fee is read. *)
Lemma add_student_new (req : request) (w : world) :
  let name := clean_name (form_get (form req) "name") in
  let cls := strip (form_get_default (form req) "class") in
  let contact := strip (form_get_default (form req) "contact") in
  let fee := form_get (form req) "total_fee" in
  method req = POST ->
  well_formed_number fee ->
  find (name_and_class name cls) (students_col w) = None ->
  fst (add_student req w) = Return (redirect ep_students_list) /\
  students_col (snd (add_student req w))
    = students_col w ++
      [{| st_id := fresh w 0%nat; st_name := name; st_class := cls; st_contact := contact;
          st_total_fee := Some (amount_of fee); st_payments := Some [];
          st_created_at := clock w 0%nat; st_updated_at := clock w 0%nat |}] /\
  logs_col (snd (add_student req w))
    = logs_col w ++ [logged w "add_student" (details_added (fresh w 0%nat) name)
                       (clock w 1%nat)] /\
  flashes (snd (add_student req w)) = flashes w ++ [("success", "Student added")].
Proof.
  intros name cls contact fee Hm Hw Hf. unfold add_student, bind, find_one, gets.
  rewrite Hm. fold fee. rewrite (float_or_0_well_formed fee w Hw).
  fold name cls. rewrite Hf. simpl. now repeat split.
Qed.

(** A stored student of another class does not stand in the way. *)
Lemma name_and_class_scoped (name cls : pystr) (l : list student) :
  (forall s, In s l -> st_name s = name -> st_class s <> cls) ->
  find (name_and_class name cls) l = None.
Proof.
  intro H. induction l as [|s l IH]; simpl; [reflexivity|].
  unfold name_and_class at 1. unfold pystr_eqb.
  destruct (list_eq_dec N.eq_dec (st_name s) name) as [En|_]; simpl.
  - destruct (list_eq_dec N.eq_dec (st_class s) cls) as [Ec|_].
    + exfalso. apply (H s (or_introl eq_refl) En Ec).
    + apply IH. intros s' Hs'. apply H. now right.
  - apply IH. intros s' Hs'. apply H. now right.
Qed.

(** C3.  A create request whose normalized name and stripped class are
    those of a stored student never adds a document.  It ends in the
    duplicate warning and the redirect to the form when the fee is absent,
    empty or a number; with a fee that [float] rejects it ends in
    [ValueError], raised before the collection is searched. *)
Theorem add_student_duplicate (req : request) (w : world) (d : student) :
  let name := clean_name (form_get (form req) "name") in
  let cls := strip (form_get_default (form req) "class") in
  let fee := form_get (form req) "total_fee" in
  method req = POST ->
  find (name_and_class name cls) (students_col w) = Some d ->
  students_col (snd (add_student req w)) = students_col w /\
  (well_formed_number fee ->
   add_student req w
     = (Return (redirect ep_add_student),
        set_flashes
          (flashes w ++
           [("warning", "⚠ A student with this name already exists in this class!")]) w)) /\
  (malformed_number fee -> add_student req w = (Raise ValueError, w)).
Proof.
  intros name cls fee Hm Hf.
  assert (Hw : well_formed_number fee ->
               add_student req w
               = (Return (redirect ep_add_student),
                  set_flashes
                    (flashes w ++
                     [("warning", "⚠ A student with this name already exists in this class!")]) w)).
  { intro Hw. unfold add_student, bind, find_one, gets. rewrite Hm. fold fee.
    rewrite (float_or_0_well_formed fee w Hw). fold name cls. now rewrite Hf. }
  assert (Hb : malformed_number fee -> add_student req w = (Raise ValueError, w)).
  { intro Hb. unfold add_student, bind. rewrite Hm. fold fee.
    now rewrite (float_or_0_malformed fee w Hb). }
  split; [|split; assumption].
  destruct (number_cases fee) as [H|H]; [rewrite (Hw H)|rewrite (Hb H)]; reflexivity.
Qed.

(** *** Editing a student *)

(** C5.  An edit of a stored student never touches the payments, the
    creation time or the identifier of any document.  When another document
    has the normalized name and the class, nothing is written.  Otherwise,
    when the fee is absent, empty or a number, the document is rewritten with
    the name, class, contact and total fee of the request and the update
    time read from the clock, and every other document stays as it is; with a
    fee that [float] rejects the handler ends in [ValueError] and nothing is
    written. *)
Theorem edit_student_update (sid : pystr) (req : request) (w : world) (i : oid) (st : student) :
  let name := clean_name (form_get (form req) "name") in
  let cls := strip (form_get_default (form req) "class") in
  let contact := strip (form_get_default (form req) "contact") in
  let fee := form_get (form req) "total_fee" in
  let conflict :=
    find (fun s => name_and_class name cls s && negb (has_id i s)) (students_col w) in
  method req = POST ->
  ObjectId sid = Some i ->
  find (has_id i) (students_col w) = Some st ->
  map kept (students_col (snd (edit_student sid req w))) = map kept (students_col w) /\
  (conflict <> None -> students_col (snd (edit_student sid req w)) = students_col w) /\
  (conflict = None -> well_formed_number fee ->
   fst (edit_student sid req w) = Return (redirect ep_students_list) /\
   exists l1 l2,
     students_col w = l1 ++ st :: l2 /\
     find (has_id i) l1 = None /\
     students_col (snd (edit_student sid req w))
       = l1 ++ set_fields name cls contact (amount_of fee) (clock w 0%nat) st :: l2) /\
  (malformed_number fee -> edit_student sid req w = (Raise ValueError, w)).
Proof.
  intros name cls contact fee conflict Hm Hi Hs.
  assert (Hbad : malformed_number fee -> edit_student sid req w = (Raise ValueError, w)).
  { intro Hb. unfold edit_student, bind, object_id, find_one, gets. rewrite Hi. simpl.
    rewrite Hs, Hm. fold fee. now rewrite (float_or_0_malformed fee w Hb). }
  assert (Hdup : conflict <> None -> well_formed_number fee ->
                 students_col (snd (edit_student sid req w)) = students_col w).
  { intros Hc Hw. unfold edit_student, bind, object_id, find_one, gets. rewrite Hi. simpl.
    rewrite Hs, Hm. fold fee. rewrite (float_or_0_well_formed fee w Hw).
    fold name cls conflict. destruct conflict; [reflexivity|contradiction]. }
  assert (Hok : conflict = None -> well_formed_number fee ->
                fst (edit_student sid req w) = Return (redirect ep_students_list) /\
                students_col (snd (edit_student sid req w))
                = update_first (has_id i)
                    (set_fields name cls contact (amount_of fee) (clock w 0%nat))
                    (students_col w)).
  { intros Hc Hw. unfold edit_student, bind, object_id, find_one, gets. rewrite Hi. simpl.
    rewrite Hs, Hm. fold fee. rewrite (float_or_0_well_formed fee w Hw).
    fold name cls conflict. rewrite Hc. simpl. now split. }
  split; [|split; [|split]].
  - destruct (number_cases fee) as [Hw|Hb]; [|now rewrite (Hbad Hb)].
    destruct conflict eqn:Hc.
    + rewrite Hdup; [reflexivity|discriminate|exact Hw].
    + destruct (Hok eq_refl Hw) as [_ ->]. now apply update_first_map.
  - intro Hc. destruct (number_cases fee) as [Hw|Hb]; [now apply Hdup|].
    now rewrite (Hbad Hb).
  - intros Hc Hw. destruct (Hok Hc Hw) as [E1 E2]. split; [exact E1|].
    destruct (update_first_some (has_id i)
                (set_fields name cls contact (amount_of fee) (clock w 0%nat))
                (students_col w) st Hs) as [l1 [l2 [F1 [F2 F3]]]].
    exists l1, l2. rewrite E2. now repeat split.
  - exact Hbad.
Qed.

(** *** The unpaid balance *)

(** With every key present, [calc_unpaid] is the total fee minus the sum of
    the amounts, the amounts being added to 0 one after the other. *)
Lemma calc_unpaid_sum (s : student) (fee : num) (ps : list payment) :
  st_total_fee s = Some fee -> st_payments s = Some ps ->
  calc_unpaid s = num_sub fee (fold_left (fun acc p => num_add acc (get_amount p)) ps num_zero).
Proof.
  intros Hf Hp. unfold calc_unpaid, get_total_fee, get_payments, py_sum.
  rewrite Hf, Hp. f_equal. clear Hp. generalize num_zero.
  induction ps as [|p ps IH]; intro z; simpl; [reflexivity|apply IH].
Qed.

End HandlerFacts.

Lemma amounts_present {R : Runtime} (ps : list payment) (amounts : list num) :
  map amount ps = map Some amounts -> map get_amount ps = amounts.
Proof.
  revert amounts. induction ps as [|p ps IH]; intros [|a amounts] H;
    try discriminate; [reflexivity|].
  simpl in H. inversion H as [[Ha Hps]]. simpl. unfold get_amount at 1.
  rewrite Ha. f_equal. now apply IH.
Qed.

(** C4.  The unpaid balance of a student record is its total fee minus the
    sum of the amounts of its payments, the amounts being added to 0 from the
    first payment to the last; a key that is absent reads as 0, and as no
    payment for the list.  Nothing keeps the result from going below zero:
    100 owed and 150 paid leave -50. *)
Theorem calc_unpaid_no_clamping :
  (forall (R : Runtime) (s : student) (fee : num) (ps : list payment)
          (amounts : list num),
     st_total_fee s = Some fee ->
     st_payments s = Some ps ->
     map amount ps = map Some amounts ->
     calc_unpaid s = num_sub fee (fold_left num_add amounts num_zero)) /\
  (forall (R : Runtime) (s : student),
     calc_unpaid s
     = num_sub
         (match st_total_fee s with Some fee => fee | None => num_zero end)
         (fold_left
            (fun received p =>
               num_add received (match amount p with Some a => a | None => num_zero end))
            (match st_payments s with Some ps => ps | None => [] end)
            num_zero)) /\
  calc_unpaid (R := example_runtime) Office.overpaid = (-50)%Z.
Proof.
  split; [|split].
  - intros R s fee ps amounts Hf Hp Ha.
    unfold calc_unpaid, get_total_fee, get_payments, py_sum.
    now rewrite Hf, Hp, (amounts_present ps amounts Ha).
  - intros R s. unfold calc_unpaid, get_total_fee, get_payments, py_sum. f_equal.
    assert (H : forall (l : list payment) (z : num),
               fold_left num_add (map get_amount l) z
               = fold_left
                   (fun received p =>
                      num_add received
                        (match amount p with Some a => a | None => num_zero end))
                   l z).
    { induction l as [|p l IH]; intro z; simpl; [reflexivity|apply IH]. }
    apply H.
  - reflexivity.
Qed.

(** * The handlers on concrete requests *)

Module Examples.

Open Scope string_scope.
Open Scope list_scope.

Import Office.

#[local] Existing Instance example_runtime.

(** The example of the specification: 1000 owed, 300 and 200 paid. *)
Example calc_unpaid_john : calc_unpaid john = 500%Z.
Proof. reflexivity. Qed.

(** Witness of C4: the example of the specification, 1000 owed, 300 and 200
    paid. *)
Lemma calc_unpaid_no_clamping_witness : calc_unpaid john = 500%Z.
Proof.
  destruct calc_unpaid_no_clamping as [H _].
  exact (H example_runtime john 1000%Z
           [ {| amount := Some 300%Z; date := 11; note := None |};
             {| amount := Some 200%Z; date := 12; note := Some (py "cash") |} ]
           [300%Z; 200%Z] eq_refl eq_refl eq_refl).
Defined.

(** Witness of C9. *)
Lemma invalid_id_raises_witness :
  edit_student sid_bad (post []) office = (Raise InvalidId, office) /\
  delete_student sid_bad office = (Raise InvalidId, office) /\
  fst (add_payment sid_bad (post [("amount", py "50")]) office) = Raise InvalidId.
Proof.
  destruct (invalid_id_raises sid_bad (post []) office eq_refl) as [H1 [H2 _]].
  destruct (invalid_id_raises sid_bad (post [("amount", py "50")]) office eq_refl)
    as [_ [_ [H3 _]]].
  exact (conj H1 (conj H2 H3)).
Defined.

(** Witness of C6. *)
Lemma missing_student_noop_witness :
  students_col (snd (delete_student sid_nobody office)) = [john] /\
  students_col (snd (add_payment sid_nobody (post [("amount", py "50")]) office)) = [john].
Proof.
  destruct (missing_student_noop sid_nobody (post [("amount", py "50")]) office 9
              eq_refl eq_refl) as [H _].
  exact H.
Defined.

(** Witness of C10. *)
Lemma missing_student_logged_witness :
  logs_col (snd (delete_student sid_nobody office))
  = [ {| action := "delete_student"; log_details := details_student sid_nobody;
         by_user := Some (py "admin"); at_time := 100 |} ] /\
  logs_col (snd (add_payment sid_nobody (post [("amount", py "50")]) office))
  = [ {| action := "add_payment"; log_details := details_payment sid_nobody 50%Z;
         by_user := Some (py "admin"); at_time := 102 |} ].
Proof.
  destruct (missing_student_logged sid_nobody (post [("amount", py "50")]) office 9
              eq_refl eq_refl) as [[_ [H1 _]] [_ [H2 _]]].
  exact (conj H1 H2).
Defined.

(** Witness of C7: nobody is called [guest]; the request in the name of
    [admin] has no password field. *)
Lemma login_failure_outcomes_witness :
  login (post [("username", py "guest")]) office
  = (Return (redirect ep_login),
     set_flashes [("error", "Invalid credentials")] office) /\
  login (post [("username", py "admin")]) office = (Raise PasswordError, office).
Proof.
  destruct (login_failure_outcomes
              (post [("username", py "guest")]) (post [("username", py "admin")])
              office root eq_refl eq_refl eq_refl eq_refl) as [H1 [_ H2]].
  exact (conj H1 (proj1 (H2 eq_refl))).
Defined.

(** With a password that does not match, the two failed logins end alike. *)
Example login_wrong_password :
  login (post [("username", py "guest"); ("password", py "secret")]) office
  = login (post [("username", py "admin"); ("password", py "guess")]) office.
Proof. reflexivity. Qed.

Lemma abc_malformed : malformed_number (Some (py "abc")).
Proof. exists (py "abc"). repeat split. intro E. discriminate E. Defined.

(** Witness of C1: the amount [abc] is recorded as 0, the fee [abc] raises. *)
Lemma malformed_number_handling_witness :
  fst (add_payment sid_john (post [("amount", py "abc")]) office)
    = Return (redirect (ep_edit_student sid_john)) /\
  add_student (post [("name", py "ann lee"); ("class", py "5"); ("total_fee", py "abc")])
    office = (Raise ValueError, office) /\
  edit_student sid_john
    (post [("name", py "john doe"); ("class", py "5"); ("total_fee", py "abc")])
    office = (Raise ValueError, office).
Proof.
  destruct (malformed_number_handling (Some (py "abc")) abc_malformed) as [H1 [H2 H3]].
  split; [|split].
  - exact (proj1 (H1 sid_john (post [("amount", py "abc")]) office 1 eq_refl eq_refl)).
  - exact (H2 (post [("name", py "ann lee"); ("class", py "5"); ("total_fee", py "abc")])
             office eq_refl eq_refl).
  - exact (H3 sid_john
             (post [("name", py "john doe"); ("class", py "5"); ("total_fee", py "abc")])
             office 1 john eq_refl eq_refl eq_refl eq_refl).
Defined.

(** Witness of C3: a second John Doe of class 5 is turned down with the
    warning when the fee is a number, and with [ValueError] when it is not. *)
Lemma add_student_duplicate_witness :
  fst (add_student
         (post [("name", py " john   doe"); ("class", py "5 "); ("total_fee", py "800")])
         office) = Return (redirect ep_add_student) /\
  add_student
    (post [("name", py " john   doe"); ("class", py "5 "); ("total_fee", py "abc")])
    office = (Raise ValueError, office).
Proof.
  split.
  - destruct (add_student_duplicate
                (post [("name", py " john   doe"); ("class", py "5 "); ("total_fee", py "800")])
                office john eq_refl eq_refl) as [_ [H _]].
    rewrite H; [reflexivity|]. intro E. discriminate E.
  - destruct (add_student_duplicate
                (post [("name", py " john   doe"); ("class", py "5 "); ("total_fee", py "abc")])
                office john eq_refl eq_refl) as [_ [_ H]].
    exact (H abc_malformed).
Defined.

(** The same name in class 6 is accepted. *)
Example add_student_other_class :
  fst (add_student
         (post [("name", py "john doe"); ("class", py "6"); ("total_fee", py "800")])
         office) = Return (redirect ep_students_list) /\
  List.length (students_col (snd (add_student
         (post [("name", py "john doe"); ("class", py "6"); ("total_fee", py "800")])
         office))) = 2%nat.
Proof. split; reflexivity. Qed.

(** Witness of C5: an edit keeps the payments and the creation time; with
    the fee [abc] it raises. *)
Lemma edit_student_update_witness :
  map kept (students_col (snd (edit_student sid_john
         (post [("name", py "john  doe"); ("class", py "6"); ("total_fee", py "900")])
         office))) = [kept john] /\
  edit_student sid_john
    (post [("name", py "john  doe"); ("class", py "6"); ("total_fee", py "abc")])
    office = (Raise ValueError, office).
Proof.
  split.
  - exact (proj1 (edit_student_update sid_john
                    (post [("name", py "john  doe"); ("class", py "6"); ("total_fee", py "900")])
                    office 1 john eq_refl eq_refl eq_refl)).
  - destruct (edit_student_update sid_john
                (post [("name", py "john  doe"); ("class", py "6"); ("total_fee", py "abc")])
                office 1 john eq_refl eq_refl eq_refl) as [_ [_ [_ H]]].
    exact (H abc_malformed).
Defined.

End Examples.


(** * Further properties *)

(** ** The Name Normalizer *)

Section NormalizerMore.

Context {R : Runtime}.

Lemma ascii_lower_facts b c :
  c < 128 ->
  ascii_lower c < 128 /\
  ascii_case b (ascii_lower c) = ascii_case b c /\
  ascii_isalpha (ascii_lower c) = ascii_isalpha c.
Proof.
  intro Hc.
  assert (H : (ascii_lower c <? 128)
              && (ascii_case b (ascii_lower c) =? ascii_case b c)
              && Bool.eqb (ascii_isalpha (ascii_lower c)) (ascii_isalpha c) = true).
  { revert c Hc. apply ascii_cases. destruct b; vm_compute; reflexivity. }
  repeat rewrite andb_true_iff in H. destruct H as [[H1 H2] H3].
  apply N.ltb_lt in H1. apply N.eqb_eq in H2. apply Bool.eqb_prop in H3.
  now repeat split.
Qed.

Lemma do_title_lower b s :
  is_ascii s = true -> do_title b (map ascii_lower s) = do_title b s.
Proof.
  revert b. induction s as [|c s IH]; intros b Ha; [reflexivity|].
  apply is_ascii_cons in Ha. destruct Ha as [Hc Ha].
  destruct (ascii_lower_facts b c Hc) as [H1 [H2 H3]].
  simpl map. rewrite !do_title_cons_ascii by assumption.
  now rewrite H2, H3, IH.
Qed.

(** The title case of the words of an ASCII name does not depend on the
    case the letters came in. *)
Lemma title_words_lower (s : pystr) :
  is_ascii s = true ->
  map title (split s) = map title (map (map ascii_lower) (split s)).
Proof.
  intro Ha. rewrite map_map. apply map_ext_in. intros t Ht.
  pose proof (runs_ascii s (split s) (split_runs s) Ha) as Hts.
  rewrite Forall_forall in Hts. unfold title.
  symmetry. apply do_title_lower, Hts, Ht.
Qed.

(** X1.  Two ASCII names with the same words, whatever the case of their letters
    and the white space around the words, are normalized to the same name. *)
Theorem clean_name_same_words (s1 s2 : pystr) :
  is_ascii s1 = true -> is_ascii s2 = true -> same_words s1 s2 ->
  clean_name (Some s1) = clean_name (Some s2).
Proof.
  intros H1 H2 Hw. rewrite !clean_name_join. f_equal.
  rewrite (title_words_lower s1 H1), (title_words_lower s2 H2).
  unfold same_words in Hw. now rewrite Hw.
Qed.

(** X2.  The normalized form of an ASCII name is its words, title-cased, with
    exactly one space between two words and none at the ends: it is made of
    as many tokens as the name has words, and splitting it gives them back. *)
Theorem clean_name_single_spaces (s : pystr) :
  is_ascii s = true ->
  Forall token (map title (split s)) /\
  clean_name (Some s) = join [space] (map title (split s)) /\
  split (clean_name (Some s)) = map title (split s) /\
  (clean_name (Some s) = [] <-> split s = []).
Proof.
  intro Ha.
  assert (Htk : Forall token (map title (split s))).
  { pose proof (runs_ascii s (split s) (split_runs s) Ha) as Hts.
    pose proof (split_tokens s) as Hs.
    rewrite Forall_forall in *. intros t' Ht'. apply in_map_iff in Ht'.
    destruct Ht' as [t [E Ht]]. subst t'. apply title_token; auto. }
  split; [exact Htk|]. split; [apply clean_name_join|].
  split; [rewrite clean_name_join; now apply split_join|].
  rewrite clean_name_join. split.
  - intro E. apply (f_equal split) in E. rewrite split_join in E by exact Htk.
    destruct (split s); [reflexivity|discriminate].
  - intros ->. reflexivity.
Qed.

End NormalizerMore.

(** ** The collection of students *)

Section CollectionFacts.

Context {R : Runtime}.

Open Scope string_scope.
Open Scope list_scope.

(** Run a handler through every path it can take. *)
Ltac run_handler :=
  unfold add_student, edit_student, delete_student, add_payment, login, log_action,
    students_insert_one, students_update_one, students_delete_one, logs_insert_one,
    float_or_0, object_id, find_one, flash, pop_flashes, utcnow, except_ValueError,
    bind, ret, raise, gets, modify;
  repeat (match goal with
          | |- context [match ?x with _ => _ end] =>
              lazymatch x with
              | context [match _ with _ => _ end] => fail
              | _ => destruct x eqn:?
              end
          end; simpl).

Lemma pystr_eqb_eq (a b : pystr) : pystr_eqb a b = true <-> a = b.
Proof.
  unfold pystr_eqb. destruct (list_eq_dec N.eq_dec a b); split; auto; discriminate.
Qed.

Lemma name_and_class_eq (name cls : pystr) (s : student) :
  name_and_class name cls s = true <-> name_class s = (name, cls).
Proof.
  unfold name_and_class, name_class. rewrite andb_true_iff, !pystr_eqb_eq.
  split; [intros [-> ->]; reflexivity | intro E; inversion E; auto].
Qed.

Lemma has_id_eq (i : oid) (s : student) : has_id i s = true <-> st_id s = i.
Proof. unfold has_id. apply oid_eqb_eq. Qed.

Lemma find_none_all {A : Type} (q : A -> bool) (l : list A) :
  find q l = None <-> forall x, In x l -> q x = false.
Proof.
  split; [apply find_none|]. induction l as [|a l IH]; simpl; [reflexivity|].
  intro H. rewrite (H a (or_introl eq_refl)). apply IH. intros x Hx. apply H. now right.
Qed.

Lemma find_in_some {A : Type} (q : A -> bool) (l : list A) (a : A) :
  In a l -> q a = true -> find q l <> None.
Proof.
  intros Hin Hq Hn. rewrite find_none_all in Hn. rewrite (Hn a Hin) in Hq. discriminate.
Qed.

Lemma NoDup_snoc {A : Type} (l : list A) (x : A) :
  NoDup l -> ~ In x l -> NoDup (l ++ [x]).
Proof.
  intros Hl Hx. apply (Permutation_NoDup (l := x :: l)).
  - apply Permutation_cons_append.
  - now constructor.
Qed.

Lemma NoDup_replace {A : Type} (a b : list A) (x y : A) :
  NoDup (a ++ x :: b) -> ~ In y (a ++ b) -> NoDup (a ++ y :: b).
Proof.
  intros H Hy. apply NoDup_remove_1 in H.
  apply (Permutation_NoDup (l := y :: a ++ b)).
  - apply Permutation_middle.
  - now constructor.
Qed.

Lemma delete_first_some {A : Type} (q : A -> bool) (l : list A) (d : A) :
  find q l = Some d ->
  exists l1 l2, l = l1 ++ d :: l2 /\ find q l1 = None /\ delete_first q l = l1 ++ l2.
Proof.
  induction l as [|e l IH]; simpl; [discriminate|].
  destruct (q e) eqn:E.
  - intro H. inversion H; subst. exists [], l. now repeat split.
  - intro H. destruct (IH H) as [l1 [l2 [E1 [E2 E3]]]].
    exists (e :: l1), l2. simpl. rewrite E, E3, E1 at 1. now repeat split.
Qed.

Lemma delete_first_NoDup {A B : Type} (g : A -> B) (q : A -> bool) (l : list A) :
  NoDup (map g l) -> NoDup (map g (delete_first q l)).
Proof.
  destruct (find q l) as [d|] eqn:E.
  - destruct (delete_first_some q l d E) as [l1 [l2 [-> [_ ->]]]].
    rewrite !map_app. simpl. apply NoDup_remove_1.
  - now rewrite delete_first_none.
Qed.

Lemma update_first_length {A : Type} (q : A -> bool) (f : A -> A) (l : list A) :
  List.length (update_first q f l) = List.length l.
Proof.
  induction l as [|d l IH]; simpl; [reflexivity|].
  destruct (q d); simpl; [reflexivity | now rewrite IH].
Qed.

Lemma delete_first_length {A : Type} (q : A -> bool) (l : list A) :
  List.length (delete_first q l)
  = match find q l with
    | Some _ => pred (List.length l)
    | None => List.length l
    end.
Proof.
  induction l as [|d l IH]; simpl; [reflexivity|].
  destruct (q d); simpl; [reflexivity|]. rewrite IH.
  destruct (find q l) eqn:E; [|reflexivity].
  destruct l; [discriminate|reflexivity].
Qed.

(** With unique identifiers, the first document with identifier [i] is the
    only one. *)
Lemma unique_ids_split (i : oid) (l1 l2 : list student) (st : student) :
  unique_ids (l1 ++ st :: l2) -> has_id i st = true ->
  forall s, In s (l1 ++ l2) -> has_id i s = false.
Proof.
  unfold unique_ids. intros Hn Hi s Hs. rewrite map_app in Hn. simpl in Hn.
  apply NoDup_remove_2 in Hn. rewrite <- map_app in Hn.
  destruct (has_id i s) eqn:E; [|reflexivity].
  exfalso. apply Hn. apply has_id_eq in Hi, E. rewrite Hi, <- E. now apply in_map.
Qed.

Lemma unique_students_snoc (l : list student) (d : student) :
  unique_students l ->
  find (name_and_class (st_name d) (st_class d)) l = None ->
  unique_students (l ++ [d]).
Proof.
  unfold unique_students. intros Hl Hf. rewrite map_app. simpl.
  apply NoDup_snoc; [exact Hl|]. intro Hin. apply in_map_iff in Hin.
  destruct Hin as [s [E Hs]]. rewrite find_none_all in Hf.
  specialize (Hf s Hs). apply name_and_class_eq in E. congruence.
Qed.

Lemma unique_students_update (i : oid) (f : student -> student) (l : list student)
    (st : student) (name cls : pystr) :
  unique_students l -> unique_ids l ->
  find (has_id i) l = Some st ->
  (forall s, name_class (f s) = (name, cls)) ->
  find (fun s => name_and_class name cls s && negb (has_id i s)) l = None ->
  unique_students (update_first (has_id i) f l).
Proof.
  intros Hu Hid Hs Hf Hc.
  destruct (update_first_some (has_id i) f l st Hs) as [l1 [l2 [E [_ ->]]]].
  subst l. apply find_some in Hs. destruct Hs as [_ Hi].
  unfold unique_students in *. rewrite map_app in *. simpl in *.
  rewrite Hf. apply (NoDup_replace _ _ (name_class st)); [exact Hu|].
  rewrite <- map_app. intro Hin. apply in_map_iff in Hin. destruct Hin as [s [E Hin]].
  pose proof (unique_ids_split i l1 l2 st Hid Hi s Hin) as Hne.
  rewrite find_none_all in Hc.
  assert (Hs : In s (l1 ++ st :: l2)).
  { apply in_app_iff in Hin. apply in_app_iff. simpl. tauto. }
  specialize (Hc s Hs). rewrite Hne in Hc. simpl in Hc. rewrite andb_true_r in Hc.
  apply name_and_class_eq in E. congruence.
Qed.

(** X4.  [add_student] and [edit_student] keep the names unique within a class:
    when no two stored students have the same name and class, this is still
    so after [add_student] has run and, the identifiers being unique, after
    [edit_student] has run, whatever the request and however it ends. *)
Theorem unique_students_kept (sid : pystr) (req : request) (w : world) :
  unique_students (students_col w) ->
  unique_students (students_col (snd (add_student req w))) /\
  (unique_ids (students_col w) ->
   unique_students (students_col (snd (edit_student sid req w)))).
Proof.
  intros Hu. split.
  - run_handler; try exact Hu; now apply unique_students_snoc.
  - intro Hid. run_handler; try exact Hu.
    all: eapply unique_students_update; eauto; reflexivity.
Qed.

(** X5.  The identifiers stay unique: [edit_student], [delete_student] and
    [add_payment] keep them so on every request, and [add_student] does when
    the identifier the driver generates is not in use. *)
Theorem unique_ids_kept (sid : pystr) (req : request) (w : world) :
  unique_ids (students_col w) ->
  unique_ids (students_col (snd (edit_student sid req w))) /\
  unique_ids (students_col (snd (delete_student sid w))) /\
  unique_ids (students_col (snd (add_payment sid req w))) /\
  (~ In (fresh w 0%nat) (map st_id (students_col w)) ->
   unique_ids (students_col (snd (add_student req w)))).
Proof.
  intro Hid. unfold unique_ids in *. repeat split.
  - run_handler; try exact Hid. all: now rewrite update_first_map.
  - run_handler; try exact Hid. now apply delete_first_NoDup.
  - run_handler; try exact Hid. all: now rewrite update_first_map.
  - intro Hf. run_handler; try exact Hid.
    all: rewrite map_app; simpl; now apply NoDup_snoc.
Qed.

(** X6.  The number of documents: [edit_student] and [add_payment] neither add
    nor remove one, [delete_student] removes one or none, and [add_student]
    adds exactly as many documents as it appends entries to the log, one or
    none. *)
Theorem students_counted (sid : pystr) (req : request) (w : world) :
  List.length (students_col (snd (edit_student sid req w))) = List.length (students_col w) /\
  List.length (students_col (snd (add_payment sid req w))) = List.length (students_col w) /\
  (List.length (students_col (snd (delete_student sid w))) <= List.length (students_col w)
   <= S (List.length (students_col (snd (delete_student sid w)))))%nat /\
  (List.length (students_col (snd (add_student req w))) + List.length (logs_col w)
   = List.length (students_col w) + List.length (logs_col (snd (add_student req w))))%nat /\
  (List.length (students_col (snd (add_student req w)))
   <= S (List.length (students_col w)))%nat.
Proof.
  repeat split.
  - run_handler; try reflexivity. all: apply update_first_length.
  - run_handler; try reflexivity. all: apply update_first_length.
  - run_handler; try lia. rewrite delete_first_length.
    destruct (find (has_id o) (students_col w)); lia.
  - run_handler; try lia. rewrite delete_first_length.
    destruct (find (has_id o) (students_col w)); lia.
  - run_handler; rewrite ?length_app; simpl; lia.
  - run_handler; rewrite ?length_app; simpl; lia.
Qed.

(** X7.  The log is only ever appended to, by at most one entry a request, and
    no handler writes to the collection of admins. *)
Theorem log_append_only (sid : pystr) (req : request) (w : world) :
  let kept_log (w' : world) :=
    (exists l, logs_col w' = logs_col w ++ l /\ (List.length l <= 1)%nat) /\
    admins_col w' = admins_col w in
  kept_log (snd (login req w)) /\
  kept_log (snd (add_student req w)) /\
  kept_log (snd (edit_student sid req w)) /\
  kept_log (snd (delete_student sid w)) /\
  kept_log (snd (add_payment sid req w)).
Proof.
  assert (H0 : forall l : list log_entry,
             (exists l', l = l ++ l' /\ (List.length l' <= 1)%nat)).
  { intro l. exists []. rewrite app_nil_r. split; [reflexivity|simpl; lia]. }
  assert (H1 : forall (l : list log_entry) e,
             (exists l', l ++ [e] = l ++ l' /\ (List.length l' <= 1)%nat)).
  { intros l e. exists [e]. split; [reflexivity|simpl; lia]. }
  intro kept_log. unfold kept_log. repeat split.
  all: run_handler; auto.
Qed.

(** *** A payment on a stored student *)

Lemma py_sum_snoc (l : list num) (a : num) :
  py_sum (l ++ [a]) = num_add (py_sum l) a.
Proof. unfold py_sum. now rewrite fold_left_app. Qed.

(** X8.  [add_payment] on a stored student puts the payment after the payments
    recorded so far and touches no other document; the unpaid balance of the
    student becomes its total fee minus what was received plus the amount. *)
Theorem add_payment_appends (sid : pystr) (req : request) (w : world) (i : oid)
    (st : student) :
  ObjectId sid = Some i ->
  find (has_id i) (students_col w) = Some st ->
  let amt := amount_of (form_get (form req) "amount") in
  let p := {| amount := Some amt; date := clock w 0%nat;
              note := form_get (form req) "note" |} in
  let st' := push_payment p (clock w 1%nat) st in
  (exists l1 l2,
     students_col w = l1 ++ st :: l2 /\
     students_col (snd (add_payment sid req w)) = l1 ++ st' :: l2) /\
  get_payments st' = get_payments st ++ [p] /\
  (st_id st', st_name st', st_class st', st_contact st', st_total_fee st', st_created_at st')
  = (st_id st, st_name st, st_class st, st_contact st, st_total_fee st, st_created_at st) /\
  calc_unpaid st' = num_sub (get_total_fee st) (num_add (paid st) amt).
Proof.
  intros Hi Hs amt p st'. split; [|split; [|split]].
  - destruct (add_payment_run sid req w i Hi) as [_ [E _]].
    destruct (update_first_some (has_id i) (push_payment p (clock w 1%nat))
                (students_col w) st Hs) as [l1 [l2 [E1 [_ E2]]]].
    exists l1, l2. split; [exact E1|]. rewrite E. exact E2.
  - reflexivity.
  - reflexivity.
  - unfold calc_unpaid, paid.
    change (get_payments st') with (get_payments st ++ [p]).
    change (get_total_fee st') with (get_total_fee st).
    rewrite map_app. change (map get_amount [p]) with [amt].
    now rewrite py_sum_snoc.
Qed.

(** *** Deleting a stored student *)

Lemma edit_student_not_found (sid : pystr) (req : request) (w : world) (i : oid) :
  ObjectId sid = Some i ->
  find (has_id i) (students_col w) = None ->
  edit_student sid req w
  = (Return (redirect ep_students_list),
     set_flashes (flashes w ++ [("error", "Student not found")]) w).
Proof.
  intros Hi Hs. unfold edit_student, bind, object_id, find_one, gets.
  rewrite Hi. simpl. now rewrite Hs.
Qed.

(** X9.  [delete_student] on a stored student removes this document and no other;
    the identifiers being unique, no document has the identifier any more,
    and an edit of it answers that the student is not found. *)
Theorem delete_student_removes (sid : pystr) (req : request) (w : world) (i : oid)
    (st : student) :
  ObjectId sid = Some i ->
  find (has_id i) (students_col w) = Some st ->
  unique_ids (students_col w) ->
  let w' := snd (delete_student sid w) in
  (exists l1 l2, students_col w = l1 ++ st :: l2 /\ students_col w' = l1 ++ l2) /\
  find (has_id i) (students_col w') = None /\
  edit_student sid req w'
  = (Return (redirect ep_students_list),
     set_flashes (flashes w' ++ [("error", "Student not found")]) w').
Proof.
  intros Hi Hs Hid w'.
  destruct (delete_student_run sid w i Hi) as [_ [E _]]. fold w' in E.
  destruct (delete_first_some (has_id i) (students_col w) st Hs) as [l1 [l2 [E1 [_ E2]]]].
  assert (Hn : find (has_id i) (students_col w') = None).
  { rewrite E, E2. apply find_none_all. rewrite E1 in Hid.
    apply find_some in Hs. destruct Hs as [_ Hst].
    now apply (unique_ids_split i l1 l2 st). }
  split; [|split].
  - exists l1, l2. split; [exact E1|]. now rewrite E.
  - exact Hn.
  - now apply (edit_student_not_found sid req w' i).
Qed.

(** *** Creating a student twice *)

(** X3.  After [add_student] has stored a student, a second request for the same
    class whose ASCII name has the same words, in whatever case and spacing,
    is turned down with the duplicate warning and stores nothing. *)
Theorem add_student_twice (req1 req2 : request) (w : world) (n1 n2 : pystr) :
  method req1 = POST -> method req2 = POST ->
  form_get (form req1) "name" = Some n1 -> form_get (form req2) "name" = Some n2 ->
  is_ascii n1 = true -> is_ascii n2 = true -> same_words n1 n2 ->
  form_get_default (form req1) "class" = form_get_default (form req2) "class" ->
  well_formed_number (form_get (form req1) "total_fee") ->
  well_formed_number (form_get (form req2) "total_fee") ->
  find (name_and_class (clean_name (Some n1)) (strip (form_get_default (form req1) "class")))
       (students_col w) = None ->
  let w1 := snd (add_student req1 w) in
  List.length (students_col w1) = S (List.length (students_col w)) /\
  add_student req2 w1
  = (Return (redirect ep_add_student),
     set_flashes
       (flashes w1 ++
        [("warning", "⚠ A student with this name already exists in this class!")]) w1).
Proof.
  intros M1 M2 N1 N2 A1 A2 Hw Hc F1 F2 Hf w1.
  pose proof (add_student_new req1 w M1 F1) as Hnew. simpl in Hnew.
  rewrite N1 in Hnew. destruct (Hnew Hf) as [_ [E _]]. fold w1 in E.
  split; [rewrite E, length_app; simpl; lia|].
  unfold add_student at 1, bind, find_one, gets. rewrite M2.
  rewrite (float_or_0_well_formed _ w1 F2). rewrite N2, <- Hc.
  assert (En : clean_name (Some n2) = clean_name (Some n1)).
  { rewrite !clean_name_join, (title_words_lower n1 A1), (title_words_lower n2 A2).
    unfold same_words in Hw. now rewrite Hw. }
  rewrite En.
  destruct (find (name_and_class (clean_name (Some n1))
                    (strip (form_get_default (form req1) "class"))) (students_col w1))
    as [d|] eqn:Ed; [reflexivity|].
  exfalso. rewrite E in Ed. rewrite find_none_all in Ed.
  match type of Ed with
  | forall x, In x (_ ++ [?d]) -> _ => specialize (Ed d)
  end.
  rewrite in_app_iff in Ed. simpl in Ed. specialize (Ed (or_intror (or_introl eq_refl))).
  unfold name_and_class in Ed. simpl in Ed.
  assert (T : forall a, pystr_eqb a a = true) by (intro a; now apply pystr_eqb_eq).
  rewrite !T in Ed. discriminate.
Qed.

(** *** Logging in *)

Lemma login_accepts (req : request) (w : world) (a : admin) :
  method req = POST ->
  find (fun a => opt_pystr_eqb (ad_username a) (form_get (form req) "username"))
       (admins_col w) = Some a ->
  check_password_hash (ad_password_hash a) (form_get (form req) "password") = Some true ->
  login req w
  = (Return (redirect ep_dashboard),
     set_flashes [("success", "Logged in")] (set_user_id (Some (ad_id a)) w)) /\
  is_authenticated (snd (login req w)) = true.
Proof.
  intros Hm Hf Hp.
  assert (E : login req w
              = (Return (redirect ep_dashboard),
                 set_flashes [("success", "Logged in")] (set_user_id (Some (ad_id a)) w))).
  { unfold login, bind, find_one, gets. now rewrite Hm, Hf, Hp. }
  split; [exact E|]. rewrite E. unfold is_authenticated, current_user. simpl.
  apply find_some in Hf. destruct Hf as [Hin _].
  destruct (find (fun a0 => oid_eqb (ad_id a0) (ad_id a)) (admins_col w)) eqn:Ef;
    [reflexivity|].
  exfalso. apply (find_in_some _ _ a Hin) in Ef; [exact Ef|]. now apply oid_eqb_eq.
Qed.

(** X10.  A login with the user name of an admin and a password that matches its
    hash binds the session to this admin and leaves one notice, the
    confirmation, whatever was pending; the collections are as they were,
    and from then on the gate lets every handler through. *)
Theorem login_success (req : request) (w : world) (a : admin) :
  method req = POST ->
  find (fun a => opt_pystr_eqb (ad_username a) (form_get (form req) "username"))
       (admins_col w) = Some a ->
  check_password_hash (ad_password_hash a) (form_get (form req) "password") = Some true ->
  let w' := snd (login req w) in
  fst (login req w) = Return (redirect ep_dashboard) /\
  user_id w' = Some (ad_id a) /\
  flashes w' = [("success", "Logged in")] /\
  (students_col w', admins_col w', logs_col w') = (students_col w, admins_col w, logs_col w) /\
  is_authenticated w' = true /\
  forall f : M response, admin_required f w' = f w'.
Proof.
  intros Hm Hf Hp w'. destruct (login_accepts req w a Hm Hf Hp) as [E Ha].
  unfold w' in *. rewrite E in *. simpl in *. repeat split; try exact Ha.
  intro f. rewrite admin_required_gate. now rewrite Ha.
Qed.

(** *** Logging out *)

(** X11.  After a logged-in admin has logged out the session is anonymous: the
    gate sends every handler's request to the login page with the notice,
    and the handler does not run. *)
Theorem logout_closes_gate (w : world) :
  is_authenticated w = true ->
  let w' := snd (route_logout w) in
  fst (route_logout w) = Return (redirect ep_login) /\
  user_id w' = None /\
  flashes w' = flashes w ++ [("info", "Logged out")] /\
  (students_col w', admins_col w', logs_col w') = (students_col w, admins_col w, logs_col w) /\
  forall f : M response,
    admin_required f w'
    = (Return (redirect ep_login),
       set_flashes (flashes w' ++ [("message", "Please log in to access this page.")]) w').
Proof.
  intros Ha w'.
  assert (E : route_logout w
              = (Return (redirect ep_login),
                 set_flashes (flashes w ++ [("info", "Logged out")]) (set_user_id None w))).
  { unfold route_logout, login_required, logout, bind, gets. now rewrite Ha. }
  unfold w'. rewrite E. simpl. repeat split.
Qed.

End CollectionFacts.

(** ** The first run, the dashboard and the reports *)

Section ViewFacts.

Context {R : Runtime} {B : Backend}.

Open Scope string_scope.
Open Scope list_scope.

(** *** [ensure_admin] *)

(** X12.  [ensure_admin] writes to the collection of admins only, and only when it
    is empty: admins that exist are left as they are, at most one admin is
    created, and a second run changes nothing. *)
Theorem ensure_admin_once (cfg : config) (w : world) :
  let w' := snd (ensure_admin cfg w) in
  (students_col w', logs_col w', flashes w', user_id w')
  = (students_col w, logs_col w, flashes w, user_id w) /\
  (admins_col w <> [] -> ensure_admin cfg w = (Return printed_nothing, w)) /\
  (List.length (admins_col w') <= Nat.max 1 (List.length (admins_col w)))%nat /\
  snd (ensure_admin cfg w') = w'.
Proof.
  unfold ensure_admin, create_admin, admins_insert_one, utcnow, bind, ret, gets.
  destruct (admins_col w) as [|a l] eqn:Ea; simpl.
  - destruct (ADMIN_PASSWORD_HASH cfg) as [[|c h]|];
      [destruct (ADMIN_PASSWORD cfg) as [[|c p]|] | |
       destruct (ADMIN_PASSWORD cfg) as [[|c p]|]];
      simpl; rewrite ?Ea; simpl;
      (repeat split; [intro H; now elim H | lia]).
  - rewrite Ea. simpl. repeat split. lia.
Qed.

Lemma opt_pystr_eqb_refl (x : option pystr) : opt_pystr_eqb x x = true.
Proof.
  destruct x as [s|]; [|reflexivity]. simpl. unfold pystr_eqb.
  destruct (list_eq_dec N.eq_dec s s); [reflexivity|contradiction].
Qed.

(** X13.  On the first run with a password and no hash in the environment,
    [ensure_admin] creates the admin with the hash of the password, and a
    login with the configured user name and this password is accepted,
    provided [check_password_hash] accepts a password against the hash
    [generate_password_hash] made of it. *)
Theorem bootstrap_then_login (cfg : config) (w : world) (p : pystr) (req : request) :
  admins_col w = [] ->
  (ADMIN_PASSWORD_HASH cfg = None \/ ADMIN_PASSWORD_HASH cfg = Some []) ->
  ADMIN_PASSWORD cfg = Some p -> p <> [] ->
  check_password_hash (generate_password_hash p) (Some p) = Some true ->
  method req = POST ->
  form_get (form req) "username" = ADMIN_USERNAME cfg ->
  form_get (form req) "password" = Some p ->
  let w1 := snd (ensure_admin cfg w) in
  fst (ensure_admin cfg w) = Return printed_created /\
  admins_col w1
  = [ {| ad_id := fresh w 0%nat; ad_username := ADMIN_USERNAME cfg;
         ad_password_hash := generate_password_hash p; ad_created_at := clock w 0%nat |} ] /\
  fst (login req w1) = Return (redirect ep_dashboard) /\
  is_authenticated (snd (login req w1)) = true.
Proof.
  intros Ea Hh Hp Hne Hc Hm Hu Hpw w1.
  assert (E : ensure_admin cfg w
              = (Return printed_created,
                 set_fresh (fun n => fresh w (S n))
                   (set_admins
                      [ {| ad_id := fresh w 0%nat; ad_username := ADMIN_USERNAME cfg;
                           ad_password_hash := generate_password_hash p;
                           ad_created_at := clock w 0%nat |} ]
                      (set_clock (fun n => clock w (S n)) w)))).
  { unfold ensure_admin, create_admin, admins_insert_one, utcnow, bind, ret, gets.
    rewrite Ea, Hp. destruct p as [|c p]; [contradiction|].
    destruct Hh as [-> | ->]; simpl; rewrite Ea; reflexivity. }
  unfold w1. rewrite E. simpl. split; [reflexivity|]. split; [reflexivity|].
  match goal with
  | |- fst (login req ?w0) = _ /\ _ =>
      destruct (login_accepts req w0
                  {| ad_id := fresh w 0%nat; ad_username := ADMIN_USERNAME cfg;
                     ad_password_hash := generate_password_hash p;
                     ad_created_at := clock w 0%nat |} Hm) as [E1 E2]
  end.
  - simpl. rewrite Hu, opt_pystr_eqb_refl. reflexivity.
  - simpl. now rewrite Hpw.
  - rewrite E1. split; [reflexivity|]. rewrite E1 in E2. exact E2.
Qed.

(** *** [dashboard] and [api_class_stats] *)

Lemma dashboard_loop_rows (col : list student) (classes : list pystr)
    (stats : list class_stat) (c o : num) :
  dashboard_loop col classes stats c o
  = (stats ++ map (class_stat_of col) classes,
     fold_left num_add (map cs_collected (map (class_stat_of col) classes)) c,
     fold_left num_add (map cs_outstanding (map (class_stat_of col) classes)) o).
Proof.
  revert stats c o. induction classes as [|cls classes IH]; intros stats c o; simpl.
  - now rewrite app_nil_r.
  - rewrite IH, <- app_assoc. reflexivity.
Qed.

Lemma dashboard_run (w : world) :
  let rows := map (class_stat_of (students_col w)) (distinct_class (students_col w)) in
  dashboard w
  = (Return {| class_stats := rows;
               total_collected := py_sum (map cs_collected rows);
               total_outstanding := py_sum (map cs_outstanding rows);
               latest_students := firstn 6 (sort_created_desc (students_col w)) |}, w).
Proof.
  unfold dashboard, bind, gets, ret. rewrite dashboard_loop_rows. reflexivity.
Qed.

Lemma count_one (x : pystr) (classes : list pystr) :
  NoDup classes -> In x classes ->
  list_sum (map (fun c => if pystr_eqb x c then 1 else 0)%nat classes) = 1%nat.
Proof.
  induction 1 as [|c classes Hc Hn IH]; [contradiction|]. simpl. intros [->|Hin].
  - assert (E : pystr_eqb x x = true) by now apply pystr_eqb_eq.
    rewrite E.
    assert (Z : forall l, ~ In x l ->
                list_sum (map (fun c => if pystr_eqb x c then 1 else 0)%nat l) = 0%nat).
    { induction l as [|d l IHl]; [reflexivity|]. simpl. intro Hd.
      destruct (pystr_eqb x d) eqn:Ed.
      - apply pystr_eqb_eq in Ed. subst. tauto.
      - apply IHl. tauto. }
    now rewrite (Z classes Hc).
  - destruct (pystr_eqb x c) eqn:Ec.
    + apply pystr_eqb_eq in Ec. subst. contradiction.
    + now apply IH.
Qed.

Lemma list_sum_add {A : Type} (f g : A -> nat) (l : list A) :
  list_sum (map (fun a => f a + g a)%nat l)
  = (list_sum (map f l) + list_sum (map g l))%nat.
Proof. induction l as [|a l IH]; simpl; [reflexivity|]. rewrite IH. lia. Qed.

Lemma class_counts (classes : list pystr) (l : list student) :
  NoDup classes -> (forall s, In s l -> In (st_class s) classes) ->
  list_sum (map (fun c => List.length (filter (in_class c) l)) classes) = List.length l.
Proof.
  intros Hn. induction l as [|s l IH]; intro Hin.
  - simpl. clear Hn Hin. induction classes as [|c classes IHc]; [reflexivity|].
    simpl. exact IHc.
  - transitivity
      (list_sum (map (fun c => (if pystr_eqb (st_class s) c then 1 else 0)
                               + List.length (filter (in_class c) l))%nat classes)).
    + f_equal. apply map_ext. intro c. simpl. unfold in_class at 1.
      destruct (pystr_eqb (st_class s) c); reflexivity.
    + rewrite list_sum_add.
      rewrite (count_one (st_class s) classes Hn (Hin s (or_introl eq_refl))).
      rewrite IH by (intros s' Hs'; apply Hin; now right). reflexivity.
Qed.

(** X14.  The dashboard has one row for each class that has a student.  Its two
    totals are the sums of the collected and outstanding amounts of the
    rows, and every student is counted in exactly one row: the student
    counts of the rows add up to the number of students. *)
Theorem dashboard_rows (w : world) :
  exists page,
    dashboard w = (Return page, w) /\
    NoDup (map cs_class (class_stats page)) /\
    (forall c, In c (map cs_class (class_stats page))
               <-> exists s, st_class s = c /\ In s (students_col w)) /\
    total_collected page = py_sum (map cs_collected (class_stats page)) /\
    total_outstanding page = py_sum (map cs_outstanding (class_stats page)) /\
    list_sum (map cs_students_count (class_stats page)) = List.length (students_col w).
Proof.
  eexists. split; [apply dashboard_run|]. simpl.
  assert (E : map cs_class (map (class_stat_of (students_col w))
                              (distinct_class (students_col w)))
              = distinct_class (students_col w)).
  { rewrite map_map. simpl. apply map_id. }
  rewrite E. split; [apply distinct_class_NoDup|]. split; [apply distinct_class_In|].
  split; [reflexivity|]. split; [reflexivity|].
  rewrite map_map. simpl. apply class_counts; [apply distinct_class_NoDup|].
  intros s Hs. apply distinct_class_In. now exists s.
Qed.

Lemma api_class_stats_loop_rows (col : list student) (classes : list pystr)
    (acc : class_series) :
  api_class_stats_loop col classes acc
  = {| labels := labels acc ++ map cs_class (map (class_stat_of col) classes);
       collected_series :=
         collected_series acc ++ map cs_collected (map (class_stat_of col) classes);
       outstanding_series :=
         outstanding_series acc ++ map cs_outstanding (map (class_stat_of col) classes) |}.
Proof.
  revert acc. induction classes as [|cls classes IH]; intro acc; simpl.
  - rewrite !app_nil_r. now destruct acc.
  - rewrite IH. simpl. rewrite <- !app_assoc. reflexivity.
Qed.

(** X15.  The series of the chart are the columns of the table of the dashboard:
    the class, the collected and the outstanding amount of each row, in the
    order of the rows, so that the three series have the same length. *)
Theorem api_class_stats_columns (w : world) :
  exists page series,
    dashboard w = (Return page, w) /\
    api_class_stats w = (Return series, w) /\
    labels series = map cs_class (class_stats page) /\
    collected_series series = map cs_collected (class_stats page) /\
    outstanding_series series = map cs_outstanding (class_stats page) /\
    List.length (collected_series series) = List.length (labels series) /\
    List.length (outstanding_series series) = List.length (labels series).
Proof.
  eexists. eexists. split; [apply dashboard_run|]. split.
  - unfold api_class_stats, bind, gets, ret. rewrite api_class_stats_loop_rows. reflexivity.
  - simpl. rewrite !length_map. now repeat split.
Qed.

(** *** [unpaid] *)

Lemma unpaid_loop_filter (docs : list student) :
  unpaid_loop docs
  = map unpaid_row_of (filter (fun s => num_gt_0 (calc_unpaid s)) docs).
Proof.
  unfold unpaid_loop.
  assert (H : forall acc,
             fold_left
               (fun unpaid_list s =>
                  if num_gt_0 (calc_unpaid s)
                  then unpaid_list ++ [ {| ur_id := st_id s; ur_name := st_name s;
                                           ur_class := st_class s;
                                           ur_unpaid := calc_unpaid s |} ]
                  else unpaid_list) docs acc
             = acc ++ map unpaid_row_of (filter (fun s => num_gt_0 (calc_unpaid s)) docs)).
  { induction docs as [|s docs IH]; intro acc; simpl; [now rewrite app_nil_r|].
    rewrite IH. destruct (num_gt_0 (calc_unpaid s)); [|reflexivity].
    simpl. now rewrite <- app_assoc. }
  apply (H []).
Qed.

(** X16.  The unpaid report lists the students whose unpaid balance is above zero,
    each with this balance, in the order of the collection: a stored student
    has its row in the report exactly when its balance is above zero. *)
Theorem unpaid_report (w : world) :
  exists rows,
    unpaid w = (Return rows, w) /\
    rows = map unpaid_row_of (filter (fun s => num_gt_0 (calc_unpaid s)) (students_col w)) /\
    forall s, In s (students_col w) ->
      (In (unpaid_row_of s) rows <-> num_gt_0 (calc_unpaid s) = true).
Proof.
  eexists. split; [reflexivity|]. rewrite unpaid_loop_filter. split; [reflexivity|].
  intros s Hs. split.
  - intro Hin. apply in_map_iff in Hin. destruct Hin as [s' [E Hs']].
    apply filter_In in Hs'. destruct Hs' as [_ Hp].
    apply (f_equal ur_unpaid) in E. simpl in E. now rewrite <- E.
  - intro Hp. apply in_map. apply filter_In. now split.
Qed.

End ViewFacts.

(** * The further properties on concrete requests *)

Module MoreExamples.

Import Office.
Import School.

Open Scope string_scope.
Open Scope list_scope.

#[local] Existing Instance example_runtime.
#[local] Existing Instance example_backend.

Lemma school_unique_students : unique_students (students_col school).
Proof.
  unfold unique_students. simpl.
  repeat (constructor; [simpl; intuition discriminate|]). constructor.
Qed.

Lemma school_unique_ids : unique_ids (students_col school).
Proof.
  unfold unique_ids. simpl.
  repeat (constructor; [simpl; intuition discriminate|]). constructor.
Qed.

Lemma office_unique_ids : unique_ids (students_col office).
Proof.
  unfold unique_ids. simpl.
  repeat (constructor; [simpl; intuition discriminate|]). constructor.
Qed.

(** Two spellings of one name. *)
Lemma clean_name_same_words_witness :
  clean_name (Some (py "  moHaMmAd   fairoz  ")) = clean_name (Some (py "Mohammad FAIROZ")).
Proof.
  apply (clean_name_same_words (py "  moHaMmAd   fairoz  ") (py "Mohammad FAIROZ"));
    reflexivity.
Defined.

Lemma clean_name_single_spaces_witness :
  split (clean_name (Some (py "  moHaMmAd   fairoz  "))) = [py "Mohammad"; py "Fairoz"].
Proof.
  destruct (clean_name_single_spaces (py "  moHaMmAd   fairoz  ") eq_refl)
    as [_ [_ [H _]]].
  exact H.
Defined.

(** Renaming Ann Lee to John Doe is refused, and the names stay unique. *)
Lemma unique_students_kept_witness :
  unique_students
    (students_col (snd (edit_student (py "000000000000000000000003")
                          (post [("name", py "john doe"); ("class", py "5")]) school))).
Proof.
  destruct (unique_students_kept (py "000000000000000000000003")
              (post [("name", py "john doe"); ("class", py "5")]) school
              school_unique_students) as [_ H].
  exact (H school_unique_ids).
Defined.

Lemma unique_ids_kept_witness :
  unique_ids (students_col (snd (delete_student sid_john school))).
Proof.
  destruct (unique_ids_kept sid_john (post []) school school_unique_ids) as [_ [H _]].
  exact H.
Defined.

(** A payment of 50 by John Doe, who owed 500. *)
Lemma add_payment_appends_witness :
  calc_unpaid
    (push_payment {| amount := Some 50%Z; date := 100; note := None |} 101 john)
  = 450%Z.
Proof.
  destruct (add_payment_appends sid_john (post [("amount", py "50")]) office 1 john
              eq_refl eq_refl) as [_ [_ [_ H]]].
  exact H.
Defined.

Lemma delete_student_removes_witness :
  find (has_id 1) (students_col (snd (delete_student sid_john office))) = None.
Proof.
  destruct (delete_student_removes sid_john (post []) office 1 john
              eq_refl eq_refl office_unique_ids) as [_ [H _]].
  exact H.
Defined.

(** Mary Ann of class 5 is stored once, however her name is typed again. *)
Lemma add_student_twice_witness :
  fst (add_student
         (post [("name", py "  MARY   Ann "); ("class", py "5"); ("total_fee", py "")])
         (snd (add_student
                 (post [("name", py "mary ann"); ("class", py "5"); ("total_fee", py "700")])
                 office)))
  = Return (redirect ep_add_student).
Proof.
  destruct (add_student_twice
              (post [("name", py "mary ann"); ("class", py "5"); ("total_fee", py "700")])
              (post [("name", py "  MARY   Ann "); ("class", py "5"); ("total_fee", py "")])
              office (py "mary ann") (py "  MARY   Ann ")
              eq_refl eq_refl eq_refl eq_refl eq_refl eq_refl eq_refl eq_refl)
    as [_ H].
  - simpl. intro E. discriminate E.
  - exact I.
  - reflexivity.
  - rewrite H. reflexivity.
Defined.

Lemma login_success_witness :
  flashes (snd (login (post [("username", py "admin"); ("password", py "secret")]) office))
  = [("success", "Logged in")].
Proof.
  destruct (login_success (post [("username", py "admin"); ("password", py "secret")])
              office root eq_refl eq_refl eq_refl) as [_ [_ [H _]]].
  exact H.
Defined.

Lemma logout_closes_gate_witness :
  fst (route_delete_student sid_john (snd (route_logout office)))
  = Return (redirect ep_login).
Proof.
  destruct (logout_closes_gate office eq_refl) as [_ [_ [_ [_ H]]]].
  unfold route_delete_student. rewrite H. reflexivity.
Defined.

(** With an admin in the collection, the second run does nothing. *)
Lemma ensure_admin_once_witness :
  ensure_admin with_password office = (Return printed_nothing, office).
Proof.
  destruct (ensure_admin_once with_password office) as [_ [H _]].
  apply H. intro E. discriminate E.
Defined.

Lemma bootstrap_then_login_witness :
  fst (login (post [("username", py "admin"); ("password", py "secret")])
         (snd (ensure_admin with_password first_run)))
  = Return (redirect ep_dashboard).
Proof.
  assert (Hne : py "secret" <> []) by (intro E; discriminate E).
  assert (Hc : check_password_hash (generate_password_hash (py "secret"))
                 (Some (py "secret")) = Some true) by (vm_compute; reflexivity).
  destruct (bootstrap_then_login with_password first_run (py "secret")
              (post [("username", py "admin"); ("password", py "secret")])
              eq_refl (or_introl eq_refl) eq_refl Hne Hc eq_refl eq_refl eq_refl)
    as [_ [_ [H _]]].
  exact H.
Defined.

(** Of the three students of the school only John Doe owes something. *)
Lemma unpaid_report_witness :
  fst (unpaid school) = Return [unpaid_row_of john].
Proof.
  destruct (unpaid_report school) as [rows [E [-> _]]].
  reflexivity.
Defined.

(** The dashboard of the school: two classes, three students. *)
Example dashboard_school :
  match fst (dashboard school) with
  | Return page =>
      map (fun r => (cs_class r, cs_class_total r, cs_collected r, cs_outstanding r,
                     cs_students_count r)) (class_stats page)
      = [ (py "6", 100%Z, 150%Z, (-50)%Z, 1%nat); (py "5", 1400%Z, 900%Z, 500%Z, 2%nat) ]
      /\ total_collected page = 1050%Z /\ total_outstanding page = 450%Z
  | Raise _ => False
  end.
Proof. vm_compute. repeat split. Qed.

End MoreExamples.
